(** * dsn-dashboard: filtering, aggregation, ingestion and the Power BI token relay

    A shallow embedding of the dashboard component ([Dashboard]: the filter
    effect, [onFileUpload], [kpis], [chartData]) and of the token relay
    ([GET] in [src/pages/api/powerbi-token.ts]), with the properties of the
    specification stated over it.

    JavaScript data is modelled as the code has it:
    - a number is an IEEE 754 binary64 value ([spec_float] at precision 53,
      exponent bound 1024), with [parseFloat] and [Number::toString] written
      out over it;
    - a string is a [string] of 8-bit characters; [toLowerCase] maps the
      letters A-Z (case mapping outside ASCII is not modelled);
    - a plain object ([{}], a parsed row) is the list of its own enumerable
      properties in property order, and reading a property that is not an own
      property falls back to the members every plain object inherits from
      [Object.prototype]. *)

From Stdlib Require Import ZArith String Ascii List Bool Lia.
From Stdlib Require Import Floats.SpecFloat.
From stdpp Require Import list.
Import ListNotations.

Local Open Scope string_scope.
Local Open Scope Z_scope.

(** ** Numbers *)

Module Num.

Definition float := spec_float.

Definition prec : Z := 53.
Definition emax : Z := 1024.

Definition nan : float := S754_nan.
Definition zero : float := S754_zero false.

Definition add : float -> float -> float := SFadd prec emax.
Definition div : float -> float -> float := SFdiv prec emax.

(** [x <= y] and [x >= y] of the language: false as soon as one side is NaN. *)
Definition le (x y : float) : bool := SFleb x y.
Definition ge (x y : float) : bool := SFleb y x.

Definition isNaN (x : float) : bool :=
  match x with S754_nan => true | _ => false end.

Definition isZero (x : float) : bool :=
  match x with S754_zero _ => true | _ => false end.

(** The number denoted by an integer (exact below 2^53, rounded to nearest
    even above). *)
Definition of_Z (z : Z) : float := binary_normalize prec emax z 0 false.

Definition of_nat (n : nat) : float := of_Z (Z.of_nat n).

(** The number nearest to [m * 10^e10] (ties to even), for [0 <= m]: the
    quotient of two integers is taken with enough bits that a single
    rounding decides the result. *)
Definition of_decimal (neg : bool) (m e10 : Z) : float :=
  if m =? 0 then S754_zero neg
  else
    let '(n, d) := if 0 <=? e10 then (m * 10 ^ e10, 1) else (m, 10 ^ (- e10)) in
    let '(q, e, l) := SFdiv_core_binary prec emax n 0 d 0 in
    binary_round_aux prec emax neg q e l.

(** Truncation towards zero of a finite number (ToIntegerOrInfinity). *)
Definition trunc (x : float) : float :=
  match x with
  | S754_finite s m e =>
      if 0 <=? e then x
      else
        let q := Z.shiftr (Zpos m) (- e) in
        if q =? 0 then zero else binary_normalize prec emax (if s then - q else q) 0 false
  | S754_zero _ => zero
  | _ => x
  end.

End Num.

(** ** Strings *)

Module Str.

Definition code (c : ascii) : Z := Z.of_nat (nat_of_ascii c).

Definition lower_char (c : ascii) : ascii :=
  if (65 <=? code c) && (code c <=? 90)
  then ascii_of_nat (nat_of_ascii c + 32) else c.

Fixpoint toLowerCase (s : string) : string :=
  match s with
  | EmptyString => EmptyString
  | String c s' => String (lower_char c) (toLowerCase s')
  end.

(** [s.includes(t)] *)
Fixpoint includes (s t : string) : bool :=
  String.prefix t s ||
  match s with
  | EmptyString => false
  | String _ s' => includes s' t
  end.

(** White space and line terminators (the ASCII ones). *)
Definition is_space (c : ascii) : bool :=
  ((9 <=? code c) && (code c <=? 13)) || (code c =? 32).

Fixpoint trimStart (s : string) : string :=
  match s with
  | String c s' => if is_space c then trimStart s' else s
  | EmptyString => s
  end.

Definition is_digit (c : ascii) : bool :=
  (48 <=? code c) && (code c <=? 57).

Definition digit_val (c : ascii) : Z := code c - 48.

(** Reads a maximal run of decimal digits, continuing the value [acc];
    returns the value, the number of digits read and the rest. *)
Fixpoint take_digits (s : string) (acc cnt : Z) : Z * Z * string :=
  match s with
  | String c s' =>
      if is_digit c then take_digits s' (10 * acc + digit_val c) (cnt + 1)
      else (acc, cnt, s)
  | EmptyString => (acc, cnt, s)
  end.

Definition digit_char (d : Z) : ascii := ascii_of_nat (Z.to_nat (48 + d)).

Fixpoint digits_aux (fuel : nat) (z : Z) (acc : string) : string :=
  match fuel with
  | O => acc
  | S f =>
      let acc' := String (digit_char (z mod 10)) acc in
      if z <? 10 then acc' else digits_aux f (z / 10) acc'
  end.

(** Decimal digits of a natural number [0 <= z]. *)
Definition digits (z : Z) : string :=
  digits_aux (S (Z.to_nat (Z.log2 z))) z EmptyString.

Fixpoint zeros (n : nat) : string :=
  match n with O => EmptyString | S k => String "0" (zeros k) end.

Fixpoint take (n : nat) (s : string) : string :=
  match n, s with
  | S k, String c s' => String c (take k s')
  | _, _ => EmptyString
  end.

Fixpoint drop (n : nat) (s : string) : string :=
  match n, s with
  | S k, String _ s' => drop k s'
  | _, _ => s
  end.

(** The last piece of [s.split(sep)], that is [s.split(sep).pop()]:
    what follows the last [sep], or all of [s] without one. *)
Fixpoint lastSegment_aux (sep : ascii) (s cur : string) : string :=
  match s with
  | EmptyString => cur
  | String c s' =>
      if Ascii.eqb c sep then lastSegment_aux sep s' s' else lastSegment_aux sep s' cur
  end.

Definition lastSegment (sep : ascii) (s : string) : string :=
  lastSegment_aux sep s s.

End Str.

(** ** Numeric conversions of the language *)

Module Conv.

Import Str.

(** ExponentPart: [e] or [E], an optional sign and at least one digit;
    anything else is not part of the literal and counts as exponent 0. *)
Definition parse_exponent (s : string) : Z :=
  match s with
  | String c s' =>
      if (code c =? 101) || (code c =? 69) then
        let '(sg, s'') :=
          match s' with
          | String "+" t => (1, t)
          | String "-" t => (-1, t)
          | _ => (1, s')
          end in
        let '(v, cnt, _) := take_digits s'' 0 0 in
        if cnt =? 0 then 0 else sg * v
      else 0
  | EmptyString => 0
  end.

(** The longest prefix that is a StrUnsignedDecimalLiteral, as a number:
    [Infinity], [digits . digits? exp?], [. digits exp?] or [digits exp?];
    NaN when there is no such prefix. *)
Definition parse_unsigned (neg : bool) (s : string) : Num.float :=
  if String.prefix "Infinity" s then S754_infinity neg
  else
    let '(ip, ni, r1) := take_digits s 0 0 in
    match r1 with
    | String "." r1' =>
        let '(m, nf, r2) := take_digits r1' ip 0 in
        if (ni =? 0) && (nf =? 0) then Num.nan
        else Num.of_decimal neg m (parse_exponent r2 - nf)
    | _ =>
        if ni =? 0 then Num.nan
        else Num.of_decimal neg ip (parse_exponent r1)
    end.

(** [parseFloat] on a string. *)
Definition parseFloat_string (s : string) : Num.float :=
  let t := trimStart s in
  match t with
  | String "+" r => parse_unsigned false r
  | String "-" r => parse_unsigned true r
  | _ => parse_unsigned false t
  end.

(** *** Number::toString (radix 10) *)

Fixpoint find_up (fuel : nat) (num den p : Z) : Z :=
  match fuel with
  | O => p
  | S f => if den <=? num * 10 ^ p then p else find_up f num den (p + 1)
  end.

(** The [n] with [10^(n-1) <= num/den < 10^n], for [0 < num], [0 < den]. *)
Definition decimal_exponent (num den : Z) : Z :=
  if den <=? num
  then Z.of_nat (String.length (digits (num / den)))
  else 1 - find_up 400 num den 1.

(** Looks for the least [k] such that a [k]-digit [s] with
    [s * 10^(n-k)] rounding to [x] exists, and takes the [s] closest
    to [x] (the even one in a tie). Returns [(s, k, n)]. *)
Fixpoint shortest (fuel : nat) (x : Num.float) (num den n k : Z) : Z * Z * Z :=
  let '(tn, td) :=
    if 0 <=? k - n then (num * 10 ^ (k - n), den) else (num, den * 10 ^ (n - k)) in
  let lo := tn / td in
  let r := tn mod td in
  let hi := lo + 1 in
  let lo_first :=
    match Z.compare (2 * r) td with
    | Lt => true
    | Gt => false
    | Eq => Z.even lo
    end in
  let ok c := match SFcompare (Num.of_decimal false c (n - k)) x with
              | Some Eq => true
              | _ => false
              end in
  let norm c := if c =? 10 ^ k then (10 ^ (k - 1), k, n + 1) else (c, k, n) in
  let '(c1, c2) := if lo_first then (lo, hi) else (hi, lo) in
  if ok c1 then norm c1
  else if ok c2 then norm c2
  else
    match fuel with
    | O => norm c1
    | S f => shortest f x num den n (k + 1)
    end.

Definition format_decimal (s k n : Z) : string :=
  let ds := digits s in
  if (k <=? n) && (n <=? 21) then
    (ds ++ zeros (Z.to_nat (n - k)))%string
  else if (0 <? n) && (n <=? 21) then
    (take (Z.to_nat n) ds ++ "." ++ drop (Z.to_nat n) ds)%string
  else if (-6 <? n) && (n <=? 0) then
    ("0." ++ zeros (Z.to_nat (- n)) ++ ds)%string
  else
    let e := n - 1 in
    let sign : string := if 0 <=? e then "+" else "-" in
    let es := (sign ++ digits (Z.abs e))%string in
    if k =? 1 then (ds ++ "e" ++ es)%string
    else (take 1 ds ++ "." ++ drop 1 ds ++ "e" ++ es)%string.

Definition numberToString (x : Num.float) : string :=
  match x with
  | S754_nan => "NaN"
  | S754_zero _ => "0"
  | S754_infinity s => if s then "-Infinity" else "Infinity"
  | S754_finite sg m e =>
      let '(num, den) := if 0 <=? e then (Zpos m * 2 ^ e, 1) else (Zpos m, 2 ^ (- e)) in
      let n := decimal_exponent num den in
      let '(s, k, n') := shortest 17 (S754_finite false m e) num den n 1 in
      let sign : string := if sg then "-" else EmptyString in
      (sign ++ format_decimal s k n')%string
  end.

End Conv.

(** ** Values and plain objects *)

Module Js.

Inductive JsValue : Type :=
| JUndefined
| JNull
| JBool (b : bool)
| JNum (x : Num.float)
| JStr (s : string)
(** an object met as a value (a built-in function or [Object.prototype]
    read as an inherited member, an array of surplus cells), carried by
    the string it converts to *)
| JNative (text : string).

(** ToBoolean *)
Definition truthy (v : JsValue) : bool :=
  match v with
  | JUndefined | JNull => false
  | JBool b => b
  | JNum x => negb (Num.isNaN x || Num.isZero x)
  | JStr s => negb (String.eqb s EmptyString)
  | JNative _ => true
  end.

(** [a || b] *)
Definition or_else (a b : JsValue) : JsValue := if truthy a then a else b.

(** [String(v)], also the conversion to a property key *)
Definition ToString (v : JsValue) : string :=
  match v with
  | JUndefined => "undefined"
  | JNull => "null"
  | JBool b => if b then "true" else "false"
  | JNum x => Conv.numberToString x
  | JStr s => s
  | JNative text => text
  end.

(** [parseFloat(v)]: the argument is first converted to a string. *)
Definition parseFloat (v : JsValue) : Num.float :=
  Conv.parseFloat_string (ToString v).

(** [v !== EmptyString] for the empty string *)
Definition strictNeqEmpty (v : JsValue) : bool :=
  match v with
  | JStr s => negb (String.eqb s EmptyString)
  | _ => true
  end.

(** *** Plain objects *)

(** Own enumerable properties, in property order. *)
Definition Obj (V : Type) : Type := list (string * V).

Fixpoint getOwn {V} (o : Obj V) (k : string) : option V :=
  match o with
  | [] => None
  | (k', v) :: o' => if String.eqb k' k then Some v else getOwn o' k
  end.

Definition keys {V} (o : Obj V) : list string := List.map fst o.
Definition values {V} (o : Obj V) : list V := List.map snd o.

(** The methods of [Object.prototype], which every object literal and every
    parsed row inherits. *)
Definition protoMethods : list string :=
  [ "constructor"; "__defineGetter__"; "__defineSetter__"; "hasOwnProperty";
    "__lookupGetter__"; "__lookupSetter__"; "isPrototypeOf";
    "propertyIsEnumerable"; "toString"; "valueOf"; "toLocaleString" ]%list.

Definition nativeFunctionText (name : string) : string :=
  ("function " ++ name ++ "() { [native code] }")%string.

(** What reading [o[k]] finds on the prototype when [k] is not an own
    property: a built-in method, [Object.prototype] itself for
    [__proto__], or nothing. [constructor] is the function [Object]. *)
Definition protoMember (k : string) : option string :=
  if String.eqb k "__proto__" then Some "[object Object]"
  else if String.eqb k "constructor" then Some (nativeFunctionText "Object")
  else if existsb (String.eqb k) protoMethods then Some (nativeFunctionText k)
  else None.

(** [row[k]] on an object holding values *)
Definition getProp (o : Obj JsValue) (k : string) : JsValue :=
  match getOwn o k with
  | Some v => v
  | None =>
      match protoMember k with
      | Some text => JNative text
      | None => JUndefined
      end
  end.

(** A canonical array index: the decimal digits of an integer below
    2^32 - 1, without a leading zero. Such keys are enumerated first, in
    ascending order, before the other keys in insertion order. *)
Definition arrayIndex (k : string) : option Z :=
  let '(v, cnt, rest) := Str.take_digits k 0 0 in
  if String.eqb rest EmptyString && (0 <? cnt)
     && String.eqb (Str.digits v) k && (v <? 2 ^ 32 - 1)
  then Some v else None.

(** Adds a property that is not yet an own property, at its place in
    property order. *)
Fixpoint addOwn {V} (o : Obj V) (k : string) (v : V) : Obj V :=
  match o with
  | [] => [(k, v)]
  | (k', v') :: o' =>
      match arrayIndex k, arrayIndex k' with
      | Some i, Some i' => if i <? i' then (k, v) :: o else (k', v') :: addOwn o' k v
      | Some _, None => (k, v) :: o
      | None, _ => (k', v') :: addOwn o' k v
      end
  end.

Fixpoint replaceOwn {V} (o : Obj V) (k : string) (v : V) : Obj V :=
  match o with
  | [] => []
  | (k', v') :: o' =>
      if String.eqb k' k then (k', v) :: o' else (k', v') :: replaceOwn o' k v
  end.

(** [o[k] = v] for a primitive [v]: [__proto__] is an inherited accessor
    whose setter ignores a value that is neither an object nor null, so
    that assignment leaves [o] as it is; any other key becomes, or
    updates, an own property. *)
Definition setProp {V} (o : Obj V) (k : string) (v : V) : Obj V :=
  if String.eqb k "__proto__" then o
  else
    match getOwn o k with
    | Some _ => replaceOwn o k v
    | None => addOwn o k v
    end.

(** A member of an object literal, also one with a computed key, and a
    property copied by a spread: it becomes or updates an own property,
    whatever the key. *)
Definition defineOwn {V} (o : Obj V) (k : string) (v : V) : Obj V :=
  match getOwn o k with
  | Some _ => replaceOwn o k v
  | None => addOwn o k v
  end.

End Js.

(** ** A reference host for dates *)

Module Host.

Import Str.

Definition leap (y : Z) : bool :=
  (y mod 4 =? 0) && (negb (y mod 100 =? 0) || (y mod 400 =? 0)).

Definition daysInMonth (y m : Z) : Z :=
  if (m =? 4) || (m =? 6) || (m =? 9) || (m =? 11) then 30
  else if m =? 2 then (if leap y then 29 else 28)
  else 31.

(** Days from 1970-01-01 to the given day of the proleptic Gregorian
    calendar. *)
Definition daysFromCivil (y m d : Z) : Z :=
  let y' := if m <=? 2 then y - 1 else y in
  let era := y' / 400 in
  let yoe := y' - era * 400 in
  let doy := (153 * (if 2 <? m then m - 3 else m + 9) + 2) / 5 + d - 1 in
  let doe := yoe * 365 + yoe / 4 - yoe / 100 + doy in
  era * 146097 + doe - 719468.

Definition msPerDay : Z := 86400000.

(** [Date.parse] of a host that reads the date-only form [YYYY-MM-DD]
    (which is what a date input holds), as midnight UTC, and no other
    string. *)
Definition isoDate (s : string) : Num.float :=
  match s with
  | String y1 (String y2 (String y3 (String y4 (String "-"
      (String m1 (String m2 (String "-" (String d1 (String d2 EmptyString))))))))) =>
      if forallb is_digit [y1; y2; y3; y4; m1; m2; d1; d2]%list then
        let y := 1000 * digit_val y1 + 100 * digit_val y2 + 10 * digit_val y3 + digit_val y4 in
        let m := 10 * digit_val m1 + digit_val m2 in
        let d := 10 * digit_val d1 + digit_val d2 in
        if (1 <=? m) && (m <=? 12) && (1 <=? d) && (d <=? daysInMonth y m)
        then Num.of_Z (daysFromCivil y m d * msPerDay)
        else Num.nan
      else Num.nan
  | _ => Num.nan
  end.

End Host.

(** ** The dashboard component *)

Module Dashboard.

Import Js.

(** A parsed record. *)
Definition Row : Type := Obj JsValue.

Record ColDef : Type := mkColDef {
  headerName : string;
  field : string;
  filter : bool;
  sortable : bool
}.

Record DateRange : Type := mkDateRange {
  start : string;
  end_ : string
}.

(** One entry of [numericFilters]. The two inputs write [e.target.value],
    a string, and the spread of a missing entry leaves the other bound
    undefined ([None]). *)
Record Bounds : Type := mkBounds {
  min : option string;
  max : option string
}.

Definition boundValue (b : option string) : JsValue :=
  match b with
  | None => JUndefined
  | Some s => JStr s
  end.

(** *** Filter logic (the filter effect) *)

Section FilterLogic.

(** [Date.parse] of the host: the time value of a date string, NaN when
    the host cannot read it. Outside the ISO format the result is left to
    the host, so it is a parameter here. *)
Variable Date_parse : string -> Num.float.

Definition timeClip (x : Num.float) : Num.float :=
  match x with
  | S754_finite _ _ _ =>
      if Num.le (SFabs x) (Num.of_Z 8640000000000000) then Num.trunc x else Num.nan
  | S754_zero _ => Num.zero
  | _ => Num.nan
  end.

(** The time value of [new Date(v)]. *)
Definition newDate (v : JsValue) : Num.float :=
  match v with
  | JStr s => Date_parse s
  | JNative text => Date_parse text
  | JNum x => timeClip x
  | JBool b => timeClip (Num.of_Z (if b then 1 else 0))
  | JNull => timeClip Num.zero
  | JUndefined => Num.nan
  end.

(** Text search across all fields. *)
Definition textMatch (filterText : string) (row : Row) : bool :=
  existsb
    (fun value =>
       Str.includes (Str.toLowerCase (ToString value)) (Str.toLowerCase filterText))
    (values row).

(** [row.Date || row.date || null] *)
Definition dateStr (row : Row) : JsValue :=
  or_else (or_else (getProp row "Date") (getProp row "date")) JNull.

(** [dateRange.start ? new Date(dateRange.start) : null] *)
Definition rangeBound (s : string) : option Num.float :=
  if truthy (JStr s) then Some (newDate (JStr s)) else None.

(** The callback of the date range filter. [!start] holds only for
    [null]: a date object is truthy even when it is invalid. *)
Definition datePass (dateRange : DateRange) (row : Row) : bool :=
  let d := dateStr row in
  if negb (truthy d) then true
  else
    let date := newDate d in
    let start := rangeBound (start dateRange) in
    let end' := rangeBound (end_ dateRange) in
    match start with None => true | Some s => Num.ge date s end
    && match end' with None => true | Some e => Num.le date e end.

(** The callback of one numeric filter. *)
Definition numericPass (field : string) (b : Bounds) (row : Row) : bool :=
  let min := boundValue (min b) in
  let max := boundValue (max b) in
  let val := parseFloat (getProp row field) in
  (negb (truthy min) || Num.ge val (parseFloat min))
  && (negb (truthy max) || Num.le val (parseFloat max)).

(** One round of the [forEach] over [Object.entries(numericFilters)]. *)
Definition numericStage (result : list Row) (entry : string * Bounds) : list Row :=
  let '(field, b) := entry in
  if strictNeqEmpty (boundValue (min b)) || strictNeqEmpty (boundValue (max b))
  then List.filter (numericPass field b) result
  else result.

Definition filterData (rowData : list Row) (filterText : string)
    (dateRange : DateRange) (numericFilters : Obj Bounds) : list Row :=
  let result := rowData in
  let result :=
    if truthy (JStr filterText) then List.filter (textMatch filterText) result
    else result in
  let result :=
    if truthy (JStr (start dateRange)) || truthy (JStr (end_ dateRange))
    then List.filter (datePass dateRange) result
    else result in
  fold_left numericStage numericFilters result.

(** *** The two predicates in the words of the specification *)

(** A number with an unparsable value counted as 0. *)
Definition unparsableAsZero (x : Num.float) : Num.float :=
  if Num.isNaN x then Num.zero else x.

(** A bound that is unset or the empty string. *)
Definition unsetOrEmpty (b : option string) : bool :=
  match b with
  | None => true
  | Some s => String.eqb s EmptyString
  end.

(** The numeric predicate as the specification words it: the value of the
    record is coerced to a number, an unparsable one is taken as 0 and
    compared like any other. *)
Definition numericPass_as_specified (field : string) (b : Bounds) (row : Row) : bool :=
  let value := unparsableAsZero (parseFloat (getProp row field)) in
  (unsetOrEmpty (min b) || Num.ge value (parseFloat (boundValue (min b))))
  && (unsetOrEmpty (max b) || Num.le value (parseFloat (boundValue (max b)))).

(** The date predicate as the specification words it: a record whose date
    field is absent or cannot be read as a date always passes. *)
Definition datePass_as_specified (dateRange : DateRange) (row : Row) : bool :=
  let d := dateStr row in
  if negb (truthy d) then true
  else if Num.isNaN (newDate d) then true
  else
    (String.eqb (start dateRange) EmptyString
     || Num.ge (newDate d) (Date_parse (start dateRange)))
    && (String.eqb (end_ dateRange) EmptyString
        || Num.le (newDate d) (Date_parse (end_ dateRange))).

End FilterLogic.

(** *** KPIs *)

Record Kpis : Type := mkKpis {
  totalRows : nat;
  totalSales : Num.float;
  avgSales : Num.float
}.

Definition isSalesLike (col : ColDef) : bool :=
  Str.includes (Str.toLowerCase (field col)) "sales"
  || Str.includes (Str.toLowerCase (field col)) "revenue".

(** [columnDefs.find(...)?.field] *)
Definition salesField (columnDefs : list ColDef) : option string :=
  option_map field (List.find isSalesLike columnDefs).

(** [x || 0] on numbers *)
Definition orZero (x : Num.float) : Num.float :=
  if truthy (JNum x) then x else Num.zero.

Definition sumField (f : string) (filteredData : list Row) : Num.float :=
  fold_left (fun sum row => Num.add sum (orZero (parseFloat (getProp row f))))
    filteredData Num.zero.

(** The memoized [kpis]; [None] is the empty object [{}] returned for an
    empty filtered dataset, all of whose fields read as undefined. The
    row count is kept as the list length: as a condition it holds when it
    is not 0, and as a number it is [Num.of_nat totalRows]. *)
Definition kpis (filteredData : list Row) (columnDefs : list ColDef) : option Kpis :=
  if Nat.eqb (length filteredData) 0 then None
  else
    let totalRows := length filteredData in
    let salesField := salesField columnDefs in
    let totalSales :=
      match salesField with
      | Some f => if truthy (JStr f) then sumField f filteredData else Num.zero
      | None => Num.zero
      end in
    let avgSales :=
      if negb (Nat.eqb totalRows 0)
      then Num.div totalSales (Num.of_nat totalRows)
      else Num.zero in
    Some (mkKpis totalRows totalSales avgSales).

(** [kpis.totalRows] and [kpis.avgSales] as the cards read them:
    undefined on the empty object. *)
Definition read_totalRows (k : option Kpis) : JsValue :=
  match k with
  | None => JUndefined
  | Some k => JNum (Num.of_nat (totalRows k))
  end.

Definition read_avgSales (k : option Kpis) : JsValue :=
  match k with
  | None => JUndefined
  | Some k => JNum (avgSales k)
  end.

(** [name] contains [sub] when case is ignored. *)
Definition ContainsIgnoringCase (name sub : string) : Prop :=
  exists pre post, Str.toLowerCase name = (pre ++ sub ++ post)%string.

Definition SalesLike (name : string) : Prop :=
  ContainsIgnoringCase name "sales" \/ ContainsIgnoringCase name "revenue".

(** The sum of a sequence of numbers, from 0, left to right. *)
Definition sumNumbers (xs : list Num.float) : Num.float :=
  fold_left Num.add xs Num.zero.

(** Scenario A: three records with [Sales] 100, 200 and [bad]. *)
Definition scenarioA : list Row :=
  [ [("Sales", JNum (Num.of_Z 100))];
    [("Sales", JNum (Num.of_Z 200))];
    [("Sales", JStr "bad")] ]%list.

(** *** Chart data *)

Definition COLORS : list string :=
  [ "#3B82F6"; "#8B5CF6"; "#06B6D4"; "#10B981"; "#F59E0B"; "#EF4444" ]%list.

(** A value held in [counts]: a number of records (a count never exceeds
    the length of the array, where adding 1 is exact), or what [+ 1] makes
    of anything else, a string. *)
Inductive Count : Type :=
| CNum (n : nat)
| CText (s : string).

Record Slice : Type := mkSlice {
  name : string;
  count : Count;
  fill : string
}.

(** [Object.keys(filteredData[0] || {})[0] || "Category"] *)
Definition groupByField (filteredData : list Row) : string :=
  let first : Row := match filteredData with r :: _ => r | [] => [] end in
  let k := match keys first with k :: _ => JStr k | [] => JUndefined end in
  ToString (or_else k (JStr "Category")).

(** [row[groupByField] || "Unknown"], as the property key it is used as *)
Definition categoryKey (groupByField : string) (row : Row) : string :=
  ToString (or_else (getProp row groupByField) (JStr "Unknown")).

(** [counts[key]]: an own count, else an inherited member of the object
    literal, else undefined ([None]). *)
Definition readCount (counts : Obj Count) (key : string) : option Count :=
  match getOwn counts key with
  | Some c => Some c
  | None => option_map CText (protoMember key)
  end.

(** [(c || 0) + 1]: an inherited member or a string is truthy and [+]
    appends to its string form. *)
Definition plusOne (c : option Count) : Count :=
  match c with
  | None => CNum 1
  | Some (CNum n) => CNum (S n)
  | Some (CText s) =>
      if truthy (JStr s) then CText (s ++ "1")%string else CNum 1
  end.

(** [counts[key] = (counts[key] || 0) + 1] *)
Definition bump (groupByField : string) (counts : Obj Count) (row : Row) : Obj Count :=
  let key := categoryKey groupByField row in
  setProp counts key (plusOne (readCount counts key)).

Definition countRows (groupByField : string) (filteredData : list Row) : Obj Count :=
  fold_left (bump groupByField) filteredData [].

Definition chartData (filteredData : list Row) : list Slice :=
  if Nat.eqb (length filteredData) 0 then []
  else
    let groupByField := groupByField filteredData in
    let counts := countRows groupByField filteredData in
    imap (fun i '(name, value) =>
            mkSlice name value (nth (i mod length COLORS)%nat COLORS EmptyString))
         counts.

(** The counts of a series added up, when they all are numbers. *)
Definition seriesTotal (series : list Slice) : option nat :=
  fold_right
    (fun sl acc =>
       match count sl, acc with
       | CNum n, Some t => Some (n + t)%nat
       | _, _ => None
       end)
    (Some 0%nat) series.

(** The counts held in [counts] added up, when they all are numbers. *)
Definition countsTotal (counts : Obj Count) : option nat :=
  fold_right
    (fun kv acc =>
       match snd kv, acc with
       | CNum n, Some t => Some (n + t)%nat
       | _, _ => None
       end)
    (Some 0%nat) counts.



(** Six records grouped on [Region]: the number 0, the string 0, the empty
    string, null, NaN, and a record without the field. *)
Definition mixedRegions : list Row :=
  [ [("Region", JNum Num.zero)];
    [("Region", JStr "0")];
    [("Region", JStr EmptyString)];
    [("Region", JNull)];
    [("Region", JNum Num.nan)];
    [("Other", JStr "x")] ]%list.

(** *** Session state and file upload *)

Record EmbedConfig : Type := mkEmbedConfig {
  id : string;
  embedUrl : string;
  accessToken : string
}.

Record State : Type := mkState {
  rowData : list Row;
  columnDefs : list ColDef;
  filteredData : list Row;
  filterText : string;
  selectedColumn : string;
  numericFilters : Obj Bounds;
  dateRange : DateRange;
  pbiEmbedConfig : option EmbedConfig;
  showPbi : bool
}.

Definition setRowData (v : list Row) (st : State) : State :=
  mkState v (columnDefs st) (filteredData st) (filterText st) (selectedColumn st)
    (numericFilters st) (dateRange st) (pbiEmbedConfig st) (showPbi st).

Definition setColumnDefs (v : list ColDef) (st : State) : State :=
  mkState (rowData st) v (filteredData st) (filterText st) (selectedColumn st)
    (numericFilters st) (dateRange st) (pbiEmbedConfig st) (showPbi st).

Definition setFilteredData (v : list Row) (st : State) : State :=
  mkState (rowData st) (columnDefs st) v (filterText st) (selectedColumn st)
    (numericFilters st) (dateRange st) (pbiEmbedConfig st) (showPbi st).

(** The uploaded file: its name and its contents. *)
Record File : Type := mkFile {
  fileName : string;
  fileData : string
}.

(** What the delimited-text parser hands to [complete]: [results.data]
    and [results.meta.fields]. *)
Record ParseResults : Type := mkParseResults {
  data : list Row;
  fields : list string
}.

Inductive Effect : Type :=
| Alert (message : string)
(** [event.target.value = null] *)
| ClearFileInput.

Definition toColDef (field : string) : ColDef := mkColDef field field true true.

(** [file.name.split(".").pop().toLowerCase()] *)
Definition fileExtension (file : File) : string :=
  Str.toLowerCase (Str.lastSegment "." (fileName file)).

(** The state the component starts in. *)
Definition initialState : State :=
  mkState [] [] [] EmptyString EmptyString [] (mkDateRange EmptyString EmptyString)
    None false.

(** A session with scenario A loaded, a search text, a start date and a
    lower bound on [Sales] set. *)
Definition busyState : State :=
  mkState scenarioA [toColDef "Sales"] [] "zzz" EmptyString
    [("Sales", mkBounds (Some "150") None)]%list
    (mkDateRange "2024-01-01" EmptyString) None true.

Section Upload.

Variable Date_parse : string -> Num.float.

(** The two parsing libraries, at their interface. [Papa_parse] is
    [Papa.parse] with a header row and empty lines skipped.
    [XLSX_rows] is the first sheet of the workbook as records with
    empty-string defaults; [None] when reading it throws (the component
    takes [XLSX] from the global scope of the host). *)
Variable Papa_parse : string -> ParseResults.
Variable XLSX_rows : string -> option (list Row).

(** The filter effect, run after a render in which one of its
    dependencies changed. *)
Definition filterEffect (st : State) : State :=
  setFilteredData
    (filterData Date_parse (rowData st) (filterText st) (dateRange st)
       (numericFilters st))
    st.

(** The [complete] callback given to the delimited-text parser. *)
Definition complete (results : ParseResults) (st : State) : State :=
  setColumnDefs (List.map toColDef (fields results)) (setRowData (data results) st).

(** The [onload] callback of the reader, once the rows are there. *)
Definition onload (jsonData : list Row) (st : State) : State :=
  let first : Row := match jsonData with r :: _ => r | [] => [] end in
  setColumnDefs (List.map toColDef (keys first)) (setRowData jsonData st).

(** The handler together with the completion of the read it starts and
    the render that follows: the next state and the effects on the
    page. *)
Definition onFileUpload (st : State) (file : File) : State * list Effect :=
  let fileExtension := fileExtension file in
  if String.eqb fileExtension "csv" then
    (filterEffect (complete (Papa_parse (fileData file)) st), [ClearFileInput])
  else if existsb (String.eqb fileExtension) ["xlsx"; "xls"]%list then
    match XLSX_rows (fileData file) with
    | Some jsonData => (filterEffect (onload jsonData st), [ClearFileInput])
    | None => (st, [ClearFileInput])
    end
  else
    (st, [Alert "Unsupported format. Please upload CSV or Excel."; ClearFileInput]).

(** A successful ingestion of [file], with the dataset it yields: the
    delimited-text parser completes, or the sheet is read without an
    error. *)
Inductive Ingests (file : File) : list Row -> list ColDef -> Prop :=
| Ingests_csv :
    fileExtension file = "csv" ->
    Ingests file (data (Papa_parse (fileData file)))
      (List.map toColDef (fields (Papa_parse (fileData file))))
| Ingests_sheet (jsonData : list Row) :
    In (fileExtension file) ["xlsx"; "xls"]%list ->
    XLSX_rows (fileData file) = Some jsonData ->
    Ingests file jsonData
      (List.map toColDef (keys (match jsonData with r :: _ => r | [] => [] end))).

End Upload.

(** *** The filter as one predicate *)

Section Keeps.

Variable Date_parse : string -> Num.float.

(** What one entry of [numericFilters] asks of a record: nothing when both
    bounds are the empty string, else its callback. *)
Definition entryKeeps (row : Row) (entry : string * Bounds) : bool :=
  negb (strictNeqEmpty (boundValue (min (snd entry)))
        || strictNeqEmpty (boundValue (max (snd entry))))
  || numericPass (fst entry) (snd entry) row.

(** The conjunction of the predicates that are active. *)
Definition keeps (filterText : string) (dateRange : DateRange)
    (numericFilters : Obj Bounds) (row : Row) : bool :=
  (negb (truthy (JStr filterText)) || textMatch filterText row)
  && (negb (truthy (JStr (start dateRange)) || truthy (JStr (end_ dateRange)))
      || datePass Date_parse dateRange row)
  && forallb (entryKeeps row) numericFilters.

End Keeps.

(** *** Time series *)

Section TimeSeries.

Variable Date_parse : string -> Num.float.

(** [toLocaleDateString] of the host, on the time value of a date. *)
Variable toLocaleDateString : Num.float -> string.

(** [columnDefs[1]?.field || "Value"] *)
Definition valueField (columnDefs : list ColDef) : string :=
  ToString
    (or_else
       (match nth_error columnDefs 1 with
        | Some col => JStr (field col)
        | None => JUndefined
        end)
       (JStr "Value")).

(** The object literal with [date] and the computed key [valueField]. *)
Definition timePoint (valueField : string) (row : Row) : Obj JsValue :=
  defineOwn
    [("date", JStr (toLocaleDateString (newDate Date_parse (getProp row "Date"))))]
    valueField
    (JNum (orZero (parseFloat (getProp row valueField)))).

Definition timeSeriesData (filteredData : list Row) (columnDefs : list ColDef)
    : list (Obj JsValue) :=
  let dateField := "Date" in
  let valueField := valueField columnDefs in
  List.map (timePoint valueField)
    (List.filter (fun row => truthy (getProp row dateField)) filteredData).

(** The [dataKey] of the line and of the area:
    [Object.keys(timeSeriesData[0] || {})[1] || "value"] *)
Definition seriesDataKey (timeSeriesData : list (Obj JsValue)) : string :=
  let first : Obj JsValue := match timeSeriesData with p :: _ => p | [] => [] end in
  ToString
    (or_else
       (match nth_error (keys first) 1 with
        | Some k => JStr k
        | None => JUndefined
        end)
       (JStr "value")).

End TimeSeries.

(** *** The handlers of the controls *)

Definition setFilterText (v : string) (st : State) : State :=
  mkState (rowData st) (columnDefs st) (filteredData st) v (selectedColumn st)
    (numericFilters st) (dateRange st) (pbiEmbedConfig st) (showPbi st).

Definition setSelectedColumn (v : string) (st : State) : State :=
  mkState (rowData st) (columnDefs st) (filteredData st) (filterText st) v
    (numericFilters st) (dateRange st) (pbiEmbedConfig st) (showPbi st).

Definition setNumericFilters (v : Obj Bounds) (st : State) : State :=
  mkState (rowData st) (columnDefs st) (filteredData st) (filterText st)
    (selectedColumn st) v (dateRange st) (pbiEmbedConfig st) (showPbi st).

Definition setDateRange (v : DateRange) (st : State) : State :=
  mkState (rowData st) (columnDefs st) (filteredData st) (filterText st)
    (selectedColumn st) (numericFilters st) v (pbiEmbedConfig st) (showPbi st).

Definition setPbiEmbedConfig (v : option EmbedConfig) (st : State) : State :=
  mkState (rowData st) (columnDefs st) (filteredData st) (filterText st)
    (selectedColumn st) (numericFilters st) (dateRange st) v (showPbi st).

Definition setShowPbi (v : bool) (st : State) : State :=
  mkState (rowData st) (columnDefs st) (filteredData st) (filterText st)
    (selectedColumn st) (numericFilters st) (dateRange st) (pbiEmbedConfig st) v.

Definition POWER_BI_EMBED_URL : string :=
  "https://app.powerbi.com/reportEmbed?reportId=your-report-id&groupId=your-group-id".

(** The effect on [showPbi]. *)
Definition pbiEffect (st : State) : State :=
  if showPbi st
  then setPbiEmbedConfig
         (Some (mkEmbedConfig "your-report-id" POWER_BI_EMBED_URL "your-access-token")) st
  else st.

(** Reset All: the eight setters of [onRefresh]. *)
Definition onRefresh (st : State) : State :=
  setShowPbi false
    (setSelectedColumn EmptyString
       (setNumericFilters []
          (setDateRange (mkDateRange EmptyString EmptyString)
             (setFilterText EmptyString
                (setFilteredData [] (setColumnDefs [] (setRowData [] st))))))).

(** The [onChange] of the Min input of a column:
    [{...numericFilters, [col.field]: {...numericFilters[col.field], min: value}}].
    What the read finds on the prototype has nothing a spread copies, so
    only an own entry hands its other bound on. *)
Definition onMinChange (field value : string) (st : State) : State :=
  let old := getOwn (numericFilters st) field in
  setNumericFilters
    (defineOwn (numericFilters st) field
       (mkBounds (Some value) (match old with Some b => max b | None => None end)))
    st.

Definition onMaxChange (field value : string) (st : State) : State :=
  let old := getOwn (numericFilters st) field in
  setNumericFilters
    (defineOwn (numericFilters st) field
       (mkBounds (match old with Some b => min b | None => None end) (Some value)))
    st.

(** The [onChange] of the two date inputs. *)
Definition onStartChange (value : string) (st : State) : State :=
  setDateRange (mkDateRange value (end_ (dateRange st))) st.

Definition onEndChange (value : string) (st : State) : State :=
  setDateRange (mkDateRange (start (dateRange st)) value) st.

(** The columns that get a Min and a Max input: those whose value in the
    first record reads as a number ([rowData[0]?.[col.field]]). *)
Definition numericColumns (rowData : list Row) (columnDefs : list ColDef) : list ColDef :=
  List.filter
    (fun col =>
       negb (Num.isNaN
               (parseFloat
                  (match rowData with
                   | r :: _ => getProp r (field col)
                   | [] => JUndefined
                   end))))
    columnDefs.

(** *** The session as a state machine *)

Inductive Action : Type :=
| Upload (file : File)
| Search (text : string)
| StartDate (value : string)
| EndDate (value : string)
| MinBound (field value : string)
| MaxBound (field value : string)
| TogglePbi
| Refresh
| Export.

Section Session.

Variable Date_parse : string -> Num.float.
Variable Papa_parse : string -> ParseResults.
Variable XLSX_rows : string -> option (list Row).

(** One user action taken to its end: the handler, then the effects whose
    dependencies it sets, and for an upload the completion of its read.
    The renders committed in between, and reads that overlap, are those of
    [micro] below. Exporting goes to the grid and sets nothing. *)
Definition step (st : State) (a : Action) : State :=
  match a with
  | Upload file => fst (onFileUpload Date_parse Papa_parse XLSX_rows st file)
  | Search text => filterEffect Date_parse (setFilterText text st)
  | StartDate value => filterEffect Date_parse (onStartChange value st)
  | EndDate value => filterEffect Date_parse (onEndChange value st)
  | MinBound field value => filterEffect Date_parse (onMinChange field value st)
  | MaxBound field value => filterEffect Date_parse (onMaxChange field value st)
  | TogglePbi => pbiEffect (setShowPbi (negb (showPbi st)) st)
  | Refresh => pbiEffect (filterEffect Date_parse (onRefresh st))
  | Export => st
  end.

End Session.

(** *** Renders, effects and reads, one at a time *)

(** The extension of a file name as it is commonly meant: what follows the
    last dot of a name that has one. *)
Definition extensionOf (name : string) : option string :=
  if Str.includes name "." then Some (Str.lastSegment "." name) else None.

(** What is on the page after a render is committed: the state of that
    render, which of the two effects have a dependency changed by it and
    have not run yet, and the reads that were started and have not
    finished. *)
Record Session : Type := mkSession {
  current : State;
  filterPending : bool;
  pbiPending : bool;
  reads : list File
}.

(** The first render, the effects of the mount still to run. *)
Definition mounted : Session := mkSession initialState true true [].

Inductive Event : Type :=
| User (a : Action)
| RunEffects
| ReadDone (n : nat).

Definition removeNth {A} (n : nat) (l : list A) : list A :=
  (firstn n l ++ skipn (S n) l)%list.

(** The filtered dataset of a state is the dataset under its filters. *)
Definition Current (Date_parse : string -> Num.float) (st : State) : Prop :=
  filteredData st
  = filterData Date_parse (rowData st) (filterText st) (dateRange st) (numericFilters st).

(** A state that shows the report panel has its embed configuration. *)
Definition Configured (st : State) : Prop :=
  showPbi st = true -> exists config, pbiEmbedConfig st = Some config.

Section Renders.

Variable Date_parse : string -> Num.float.
Variable Papa_parse : string -> ParseResults.
Variable XLSX_rows : string -> option (list Row).

(** The pending effects run, in the order they are declared, and the
    render with what they set is committed. *)
Definition runEffects (s : Session) : Session :=
  let st := current s in
  let st := if pbiPending s then pbiEffect st else st in
  let st := if filterPending s then filterEffect Date_parse st else st in
  mkSession st false false (reads s).

(** [onFileUpload] up to the point where it returns: a read is started for
    a name it takes for delimited text or for a spreadsheet, and nothing is
    set. *)
Definition startRead (file : File) (reads : list File) : list File :=
  if String.eqb (fileExtension file) "csv"
     || existsb (String.eqb (fileExtension file)) ["xlsx"; "xls"]%list
  then (reads ++ [file])%list
  else reads.

(** The callback of a read that finishes, [complete] or [onload]: the
    state it sets, or [None] when reading the sheet throws and nothing is
    set. *)
Definition finishRead (file : File) (st : State) : option State :=
  if String.eqb (fileExtension file) "csv"
  then Some (complete (Papa_parse (fileData file)) st)
  else
    match XLSX_rows (fileData file) with
    | Some jsonData => Some (onload jsonData st)
    | None => None
    end.

(** A handler, on a session whose effects have run: the render it leads
    to, with the effects that render leaves pending. A setter given a fresh
    array or object always changes its state; the search text changes only
    when it differs. *)
Definition handle (a : Action) (s : Session) : Session :=
  let st := current s in
  match a with
  | Upload file => mkSession st false false (startRead file (reads s))
  | Search text =>
      mkSession (setFilterText text st) (negb (String.eqb text (filterText st))) false
        (reads s)
  | StartDate value => mkSession (onStartChange value st) true false (reads s)
  | EndDate value => mkSession (onEndChange value st) true false (reads s)
  | MinBound field value => mkSession (onMinChange field value st) true false (reads s)
  | MaxBound field value => mkSession (onMaxChange field value st) true false (reads s)
  | TogglePbi => mkSession (setShowPbi (negb (showPbi st)) st) false true (reads s)
  | Refresh => mkSession (onRefresh st) true (showPbi st) (reads s)
  | Export => s
  end.

(** One thing that happens to the page. Effects left pending by the last
    render run before the next handler or callback is served. *)
Definition micro (s : Session) (e : Event) : Session :=
  match e with
  | RunEffects => runEffects s
  | User a => handle a (runEffects s)
  | ReadDone n =>
      let s := runEffects s in
      match nth_error (reads s) n with
      | None => s
      | Some file =>
          match finishRead file (current s) with
          | Some st => mkSession st true false (removeNth n (reads s))
          | None => mkSession (current s) false false (removeNth n (reads s))
          end
      end
  end.

(** The renders a session goes through, from the first. *)
Inductive Rendered : Session -> Prop :=
| Rendered_mounted : Rendered mounted
| Rendered_micro (s : Session) (e : Event) :
    Rendered s -> Rendered (micro s e).

End Renders.

End Dashboard.

(** ** The token relay *)

Module PowerBiToken.

Import Js.

(** [import.meta.env]: a setting is a string, or undefined when unset. *)
Record Env : Type := mkEnv {
  POWER_BI_CLIENT_ID : option string;
  POWER_BI_TENANT_ID : option string;
  POWER_BI_CLIENT_SECRET : option string;
  POWER_BI_WORKSPACE_ID : option string;
  POWER_BI_REPORT_ID : option string
}.

Definition setting (v : option string) : JsValue :=
  match v with
  | None => JUndefined
  | Some s => JStr s
  end.

Inductive Body : Type :=
| FormBody (params : list (string * string))
| JsonBody (members : Obj JsValue).

Record Request : Type := mkRequest {
  url : string;
  method : string;
  headers : list (string * string);
  body : Body
}.

(** The value [response.json()] resolves to, or the message of the error
    it rejects with. A value that is not an object reads every property
    as undefined, like [ParsedObject []]; [null] does not. *)
Inductive Parsed : Type :=
| ParseError (message : string)
| ParsedNull
| ParsedObject (o : Obj JsValue).

Record UpstreamResponse : Type := mkUpstreamResponse {
  ok : bool;
  statusText : string;
  json : Parsed
}.

Inductive Outcome : Type :=
| Rejected (message : string)
| Resolved (r : UpstreamResponse).

Record Response : Type := mkResponse {
  status : Z;
  responseHeaders : list (string * string);
  (** the members [JSON.stringify] writes *)
  responseBody : Obj JsValue
}.

(** A handler: it answers, or makes a request and goes on with what
    comes back. *)
Inductive Prog (A : Type) : Type :=
| Ret (a : A)
| Fetch (req : Request) (k : Outcome -> Prog A).

Arguments Ret {A} a.
Arguments Fetch {A} req k.

(** [JSON.stringify] of an object literal leaves out the members that
    are undefined. *)
Definition stringify (members : Obj JsValue) : Obj JsValue :=
  List.filter (fun '(_, v) => match v with JUndefined => false | _ => true end) members.

(** The answer of the [catch] block. *)
Definition failure (errorMessage : string) : Response :=
  mkResponse 500
    [("Content-Type", "application/json")]%list
    (stringify [("error", JStr "Failed to generate Power BI embed token");
                ("details", JStr errorMessage)]%list).

Definition incomplete : Response :=
  mkResponse 500
    [("Content-Type", "application/json")]%list
    (stringify [("error", JStr "Power BI configuration is incomplete")]%list).

(** The message of the TypeError raised by reading a property of null. *)
Definition nullRead (prop : string) : string :=
  ("Cannot read properties of null (reading '" ++ prop ++ "')")%string.

Definition GET (env : Env) : Prog Response :=
  let clientId := setting (POWER_BI_CLIENT_ID env) in
  let tenantId := setting (POWER_BI_TENANT_ID env) in
  let clientSecret := setting (POWER_BI_CLIENT_SECRET env) in
  let workspaceId := setting (POWER_BI_WORKSPACE_ID env) in
  let reportId := setting (POWER_BI_REPORT_ID env) in
  if negb (truthy clientId) || negb (truthy tenantId) || negb (truthy clientSecret)
     || negb (truthy workspaceId) || negb (truthy reportId)
  then Ret incomplete
  else
    let tokenUrl :=
      ("https://login.microsoftonline.com/" ++ ToString tenantId
         ++ "/oauth2/v2.0/token")%string in
    let scope := "https://analysis.windows.net/powerbi/api/.default" in
    let body :=
      [("client_id", ToString clientId); ("client_secret", ToString clientSecret);
       ("grant_type", "client_credentials"); ("scope", scope)]%list in
    Fetch (mkRequest tokenUrl "POST"
             [("Content-Type", "application/x-www-form-urlencoded")]%list
             (FormBody body))
      (fun tokenOutcome =>
         match tokenOutcome with
         | Rejected message => Ret (failure message)
         | Resolved tokenResponse =>
             if negb (ok tokenResponse) then
               Ret (failure ("Failed to get Azure AD token: "
                               ++ statusText tokenResponse)%string)
             else
               match json tokenResponse with
               | ParseError message => Ret (failure message)
               | ParsedNull => Ret (failure (nullRead "access_token"))
               | ParsedObject tokenData =>
                   let accessToken := getProp tokenData "access_token" in
                   let embedTokenUrl :=
                     ("https://api.powerbi.com/v1.0/myorg/groups/"
                        ++ ToString workspaceId ++ "/reports/" ++ ToString reportId
                        ++ "/GenerateToken")%string in
                   Fetch (mkRequest embedTokenUrl "POST"
                            [("Authorization", ("Bearer " ++ ToString accessToken)%string);
                             ("Content-Type", "application/json")]%list
                            (JsonBody (stringify
                               [("accessLevel", JStr "View");
                                ("allowSaveAs", JBool false)]%list)))
                     (fun embedOutcome =>
                        match embedOutcome with
                        | Rejected message => Ret (failure message)
                        | Resolved embedResponse =>
                            if negb (ok embedResponse) then
                              Ret (failure ("Failed to generate embed token: "
                                              ++ statusText embedResponse)%string)
                            else
                              match json embedResponse with
                              | ParseError message => Ret (failure message)
                              | ParsedNull => Ret (failure (nullRead "token"))
                              | ParsedObject embedData =>
                                  let embedUrl :=
                                    ("https://app.powerbi.com/reportEmbed?reportId="
                                       ++ ToString reportId ++ "&groupId="
                                       ++ ToString workspaceId)%string in
                                  Ret (mkResponse 200
                                         [("Content-Type", "application/json");
                                          ("Cache-Control", "no-store")]%list
                                         (stringify
                                            [("embedToken", getProp embedData "token");
                                             ("embedUrl", JStr embedUrl);
                                             ("reportId", reportId);
                                             ("expiry", getProp embedData "expiration")]%list))
                              end
                        end)
               end
         end).

(** Running a handler against the network: [net i req] is what the
    [i]-th request comes back with. Returns the requests made, in order,
    and the answer. *)
Fixpoint run {A} (net : nat -> Request -> Outcome) (i : nat) (p : Prog A)
    : list Request * A :=
  match p with
  | Ret a => ([], a)
  | Fetch req k =>
      let '(reqs, a) := run net (S i) (k (net i req)) in
      (req :: reqs, a)
  end.

(** A required setting that is not there: unset, or set to nothing. *)
Definition missing (v : option string) : Prop := v = None \/ v = Some EmptyString.

Definition incompleteEnv (env : Env) : Prop :=
  missing (POWER_BI_CLIENT_ID env) \/ missing (POWER_BI_TENANT_ID env)
  \/ missing (POWER_BI_CLIENT_SECRET env) \/ missing (POWER_BI_WORKSPACE_ID env)
  \/ missing (POWER_BI_REPORT_ID env).

(** All five settings are there. *)
Definition completeEnv (env : Env) : Prop :=
  truthy (setting (POWER_BI_CLIENT_ID env)) = true
  /\ truthy (setting (POWER_BI_TENANT_ID env)) = true
  /\ truthy (setting (POWER_BI_CLIENT_SECRET env)) = true
  /\ truthy (setting (POWER_BI_WORKSPACE_ID env)) = true
  /\ truthy (setting (POWER_BI_REPORT_ID env)) = true.

(** A response that came back, with the status success and a body that
    reads as an object. *)
Definition usable (o : Outcome) : option (Obj JsValue) :=
  match o with
  | Resolved r =>
      if ok r then
        match json r with
        | ParsedObject data => Some data
        | _ => None
        end
      else None
  | Rejected _ => None
  end.

(** The two requests as [GET] builds them, the second from the access
    token read off the first answer. *)
Definition tokenRequest (env : Env) : Request :=
  mkRequest
    ("https://login.microsoftonline.com/" ++ ToString (setting (POWER_BI_TENANT_ID env))
       ++ "/oauth2/v2.0/token")%string
    "POST"
    [("Content-Type", "application/x-www-form-urlencoded")]%list
    (FormBody
       [("client_id", ToString (setting (POWER_BI_CLIENT_ID env)));
        ("client_secret", ToString (setting (POWER_BI_CLIENT_SECRET env)));
        ("grant_type", "client_credentials");
        ("scope", "https://analysis.windows.net/powerbi/api/.default")]%list).

Definition embedRequest (env : Env) (accessToken : JsValue) : Request :=
  mkRequest
    ("https://api.powerbi.com/v1.0/myorg/groups/"
       ++ ToString (setting (POWER_BI_WORKSPACE_ID env)) ++ "/reports/"
       ++ ToString (setting (POWER_BI_REPORT_ID env)) ++ "/GenerateToken")%string
    "POST"
    [("Authorization", ("Bearer " ++ ToString accessToken)%string);
     ("Content-Type", "application/json")]%list
    (JsonBody (stringify [("accessLevel", JStr "View"); ("allowSaveAs", JBool false)]%list)).

(** The message of the error an outcome that is not usable ends in:
    [what] heads the one thrown on a status that is not a success, [prop]
    is the property read off the body. *)
Definition thrownMessage (what prop : string) (o : Outcome) : string :=
  match o with
  | Rejected message => message
  | Resolved r =>
      if negb (ok r) then (what ++ statusText r)%string
      else
        match json r with
        | ParseError message => message
        | ParsedNull => nullRead prop
        | ParsedObject _ => EmptyString
        end
  end.

(** The answer on success. *)
Definition success (env : Env) (embedData : Obj JsValue) : Response :=
  mkResponse 200
    [("Content-Type", "application/json"); ("Cache-Control", "no-store")]%list
    (stringify
       [("embedToken", getProp embedData "token");
        ("embedUrl",
         JStr ("https://app.powerbi.com/reportEmbed?reportId="
                 ++ ToString (setting (POWER_BI_REPORT_ID env)) ++ "&groupId="
                 ++ ToString (setting (POWER_BI_WORKSPACE_ID env)))%string);
        ("reportId", setting (POWER_BI_REPORT_ID env));
        ("expiry", getProp embedData "expiration")]%list).

End PowerBiToken.


(** * Properties *)

Import Js Dashboard.

(** ** The conversions on small inputs *)

Example parseFloat_reads_prefixes :
  List.map Conv.parseFloat_string
    ["100"; "  42px"; "-.5e3x"; "1e"; "0x10"; "bad"; "."; "-Infinity"; "1.5"]
  = [Num.of_Z 100; Num.of_Z 42; Num.of_Z (-500); Num.of_Z 1; Num.zero; Num.nan;
     Num.nan; S754_infinity true; Num.div (Num.of_Z 3) (Num.of_Z 2)].
Proof. now vm_compute. Qed.

Example numberToString_is_shortest :
  List.map (fun s => Conv.numberToString (Conv.parseFloat_string s))
    ["100"; "0.1"; "0.30000000000000004"; "1e21"; "123456789012345680000";
     "9007199254740993"; "5e-324"; "0.000001"; "0.0000001"; "-1.50"; "-0"]
  = ["100"; "0.1"; "0.30000000000000004"; "1e+21"; "123456789012345680000";
     "9007199254740992"; "5e-324"; "0.000001"; "1e-7"; "-1.5"; "0"].
Proof. now vm_compute. Qed.

Example isoDate_reads_dates :
  List.map (fun s => Conv.numberToString (Host.isoDate s))
    ["1970-01-01"; "2024-01-01"; "2023-02-29"; "not a date"]
  = ["0"; "1704067200000"; "NaN"; "NaN"].
Proof. now vm_compute. Qed.

Example fileExtension_is_last_piece :
  List.map (fun n => fileExtension (mkFile n EmptyString))
    ["data.csv"; "a.b.XLSX"; "notes.txt"; "csv"; "archive."]
  = ["csv"; "xlsx"; "txt"; "csv"; EmptyString].
Proof. now vm_compute. Qed.

(** ** The filter engine *)

(** *** Numeric bounds *)

Lemma ge_nan_l (y : Num.float) : Num.ge S754_nan y = false.
Proof. now destruct y. Qed.

Lemma le_nan_l (y : Num.float) : Num.le S754_nan y = false.
Proof. reflexivity. Qed.

Lemma isNaN_eq (x : Num.float) : Num.isNaN x = true -> x = S754_nan.
Proof. now destruct x. Qed.

Lemma falsy_bound (b : option string) :
  negb (truthy (boundValue b)) = unsetOrEmpty b.
Proof.
  destruct b as [s|]; simpl; [|reflexivity].
  now rewrite negb_involutive.
Qed.

Lemma bound_guard_off (b : Bounds) :
  strictNeqEmpty (boundValue (min b)) || strictNeqEmpty (boundValue (max b)) = false ->
  unsetOrEmpty (min b) = true /\ unsetOrEmpty (max b) = true.
Proof.
  intros H. apply orb_false_elim in H as [Hmin Hmax].
  destruct b as [[mn|] [mx|]]; simpl in *; try discriminate.
  apply negb_false_iff in Hmin, Hmax. now split.
Qed.

Lemma numericPass_unfold (field : string) (b : Bounds) (row : Row) :
  numericPass field b row =
  (unsetOrEmpty (min b)
   || Num.ge (parseFloat (getProp row field)) (parseFloat (boundValue (min b))))
  && (unsetOrEmpty (max b)
      || Num.le (parseFloat (getProp row field)) (parseFloat (boundValue (max b)))).
Proof. unfold numericPass. now rewrite !falsy_bound. Qed.

(** C2, as the code has it. A record stays through the round of one
    numeric-bound entry exactly when it was there and, for each bound,
    the bound is unset or empty or the value of the record, coerced by
    [parseFloat], is on the right side of it. An unparsable value coerces
    to NaN, which is on the right side of nothing: such a record is dropped
    as soon as one bound of the entry is not empty. *)
Theorem numeric_bound_semantics (field : string) (b : Bounds)
    (result : list Row) (row : Row) :
  (In row (numericStage result (field, b)) <->
   In row result
   /\ (unsetOrEmpty (min b) = true
       \/ Num.ge (parseFloat (getProp row field)) (parseFloat (boundValue (min b))) = true)
   /\ (unsetOrEmpty (max b) = true
       \/ Num.le (parseFloat (getProp row field)) (parseFloat (boundValue (max b))) = true))
  /\ (Num.isNaN (parseFloat (getProp row field)) = true ->
      unsetOrEmpty (min b) = false \/ unsetOrEmpty (max b) = false ->
      ~ In row (numericStage result (field, b))).
Proof.
  assert (Hchar :
    In row (numericStage result (field, b)) <->
    In row result /\ numericPass field b row = true).
  { unfold numericStage.
    destruct (strictNeqEmpty _ || strictNeqEmpty _) eqn:Hguard.
    - apply filter_In.
    - apply bound_guard_off in Hguard as [Hmin Hmax].
      rewrite numericPass_unfold, Hmin, Hmax. simpl. tauto. }
  split.
  - rewrite Hchar, numericPass_unfold, andb_true_iff, !orb_true_iff. tauto.
  - intros Hnan Hset Hin. apply Hchar in Hin as [_ Hpass].
    rewrite numericPass_unfold in Hpass.
    apply isNaN_eq in Hnan. rewrite Hnan, ge_nan_l, le_nan_l in Hpass.
    destruct Hset as [Hset|Hset]; rewrite Hset in Hpass; simpl in Hpass;
      [discriminate | now rewrite andb_false_r in Hpass].
Qed.

(** C2, counterexample: with a lower bound of -5 the record whose value is
    the unparsable [bad] is dropped by the code, where the claim has it
    compared as 0 and kept. *)
Lemma unparsable_value_fails_numeric_bound :
  numericPass "Sales" (mkBounds (Some "-5") None) [("Sales", JStr "bad")] = false
  /\ numericPass_as_specified "Sales" (mkBounds (Some "-5") None)
       [("Sales", JStr "bad")] = true
  /\ numericStage [[("Sales", JStr "bad")]] ("Sales", mkBounds (Some "-5") None) = [].
Proof. now vm_compute. Qed.

(** *** The pipeline and the date range *)

Section FilterProperties.

Variable Date_parse : string -> Num.float.

Lemma filter_sublist {A} (f : A -> bool) (l : list A) :
  sublist (List.filter f l) l.
Proof.
  induction l as [|x l IH]; simpl.
  - constructor.
  - destruct (f x); now constructor.
Qed.

Lemma numericStage_sublist (result : list Row) (entry : string * Bounds) :
  sublist (numericStage result entry) result.
Proof.
  destruct entry as [fld b]. unfold numericStage.
  destruct (_ || _); [apply filter_sublist | reflexivity].
Qed.

Lemma numericFilters_sublist (numericFilters : Obj Bounds) (result : list Row) :
  sublist (fold_left numericStage numericFilters result) result.
Proof.
  revert result.
  induction numericFilters as [|entry rest IH]; intros result; simpl.
  - reflexivity.
  - etransitivity; [apply IH | apply numericStage_sublist].
Qed.

(** C4. The filtered dataset is a subsequence of the dataset: its records
    are records of the dataset, in the order they have there, none twice
    and none made up. *)
Theorem filterData_subsequence (rowData : list Row) (filterText : string)
    (dateRange : DateRange) (numericFilters : Obj Bounds) :
  sublist (filterData Date_parse rowData filterText dateRange numericFilters) rowData
  /\ (forall row,
        In row (filterData Date_parse rowData filterText dateRange numericFilters) ->
        In row rowData)
  /\ (length (filterData Date_parse rowData filterText dateRange numericFilters)
      <= length rowData)%nat.
Proof.
  assert (Hsub :
    sublist (filterData Date_parse rowData filterText dateRange numericFilters) rowData).
  { unfold filterData.
    etransitivity; [apply numericFilters_sublist |].
    etransitivity.
    - destruct (_ || _); [apply filter_sublist | reflexivity].
    - destruct (truthy _); [apply filter_sublist | reflexivity]. }
  split; [exact Hsub | split].
  - intros row Hin. apply list_elem_of_In. apply list_elem_of_In in Hin.
    eapply elem_of_sublist; eauto.
  - now apply sublist_length.
Qed.

Lemma rangeBound_unfold (s : string) :
  rangeBound Date_parse s =
  if String.eqb s EmptyString then None else Some (Date_parse s).
Proof. unfold rangeBound. simpl. now destruct (String.eqb s EmptyString). Qed.

Lemma datePass_truthy (dateRange : DateRange) (row : Row) :
  truthy (dateStr row) = true ->
  datePass Date_parse dateRange row =
  (String.eqb (start dateRange) EmptyString
   || Num.ge (newDate Date_parse (dateStr row)) (Date_parse (start dateRange)))
  && (String.eqb (end_ dateRange) EmptyString
      || Num.le (newDate Date_parse (dateStr row)) (Date_parse (end_ dateRange))).
Proof.
  intros Ht. unfold datePass. rewrite Ht, !rangeBound_unfold. simpl.
  now destruct (String.eqb (start dateRange) EmptyString),
              (String.eqb (end_ dateRange) EmptyString).
Qed.

(** C3, as the code has it. A record whose [Date] and [date] fields are
    both absent or falsy (empty, 0, null, NaN) always passes the date
    range. A record with a date value passes exactly when the start is
    unset or its date is at or after it, and the end is unset or its date
    is at or before it. A date value that cannot be read as a date has the
    time value NaN, which is on neither side of anything: such a record is
    dropped as soon as a start or an end is set. *)
Theorem date_range_semantics (dateRange : DateRange) (row : Row) :
  (truthy (dateStr row) = false -> datePass Date_parse dateRange row = true)
  /\ (truthy (dateStr row) = true ->
      (datePass Date_parse dateRange row = true <->
       (start dateRange = EmptyString
        \/ Num.ge (newDate Date_parse (dateStr row)) (Date_parse (start dateRange)) = true)
       /\ (end_ dateRange = EmptyString
           \/ Num.le (newDate Date_parse (dateStr row)) (Date_parse (end_ dateRange)) = true)))
  /\ (truthy (dateStr row) = true ->
      Num.isNaN (newDate Date_parse (dateStr row)) = true ->
      start dateRange <> EmptyString \/ end_ dateRange <> EmptyString ->
      datePass Date_parse dateRange row = false).
Proof.
  split; [|split].
  - intros Hf. unfold datePass. now rewrite Hf.
  - intros Ht. rewrite (datePass_truthy _ _ Ht), andb_true_iff, !orb_true_iff.
    now rewrite !String.eqb_eq.
  - intros Ht Hnan Hset. rewrite (datePass_truthy _ _ Ht).
    apply isNaN_eq in Hnan. rewrite Hnan, ge_nan_l, le_nan_l, !orb_false_r.
    destruct Hset as [Hset|Hset]; apply String.eqb_neq in Hset; rewrite Hset;
      [reflexivity | apply andb_false_r].
Qed.

End FilterProperties.

(** C2, witness (scenario B): with a lower bound of 150 on [Sales] the
    record with 200 stays. *)
Lemma numeric_bound_semantics_witness :
  In [("Sales", JNum (Num.of_Z 200))]
    (numericStage scenarioA ("Sales", mkBounds (Some "150") None)).
Proof.
  apply (proj1 (numeric_bound_semantics "Sales" (mkBounds (Some "150") None)
                  scenarioA [("Sales", JNum (Num.of_Z 200))])).
  split; [right; left; reflexivity |].
  split; [right; now vm_compute | left; reflexivity].
Defined.

(** Scenario B in full: of the three records only the one with 200 is
    left. *)
Example scenarioB_filtered :
  filterData Host.isoDate scenarioA EmptyString (mkDateRange EmptyString EmptyString)
    [("Sales", mkBounds (Some "150") None)]
  = [[("Sales", JNum (Num.of_Z 200))]].
Proof. now vm_compute. Qed.

(** C3, witness (scenario C): with a start of 2024-01-01 a record with no
    [Date] field passes. *)
Lemma date_range_semantics_witness :
  datePass Host.isoDate (mkDateRange "2024-01-01" EmptyString)
    [("Region", JStr "north")] = true.
Proof.
  apply (proj1 (date_range_semantics Host.isoDate
                  (mkDateRange "2024-01-01" EmptyString) [("Region", JStr "north")])).
  reflexivity.
Defined.

(** Scenario C in full, with records on either side of the start. *)
Example scenarioC_filtered :
  filterData Host.isoDate
    [ [("Region", JStr "north")];
      [("Date", JStr "2023-12-31")];
      [("Date", JStr "2024-01-01")];
      [("date", JStr "2024-06-30")] ]
    EmptyString (mkDateRange "2024-01-01" EmptyString) []
  = [ [("Region", JStr "north")];
      [("Date", JStr "2024-01-01")];
      [("date", JStr "2024-06-30")] ].
Proof. now vm_compute. Qed.

(** C3, counterexample: with a start of 2024-01-01 the record whose [Date]
    is not a date is dropped by the code, where the claim has it kept. *)
Lemma unparsable_date_is_excluded :
  datePass Host.isoDate (mkDateRange "2024-01-01" EmptyString)
    [("Date", JStr "not a date")] = false
  /\ datePass_as_specified Host.isoDate (mkDateRange "2024-01-01" EmptyString)
       [("Date", JStr "not a date")] = true
  /\ filterData Host.isoDate [[("Date", JStr "not a date")]] EmptyString
       (mkDateRange "2024-01-01" EmptyString) [] = [].
Proof. now vm_compute. Qed.

(** ** The aggregation engine: KPIs *)

Lemma prefix_iff (t s : string) :
  String.prefix t s = true <-> exists post, s = (t ++ post)%string.
Proof.
  revert s. induction t as [|c t IH]; intros s.
  - split; [intros _; now exists s | intros _; now destruct s].
  - destruct s as [|c' s]; simpl.
    + split; [discriminate | intros [post H]; discriminate].
    + destruct (Ascii.ascii_dec c c') as [->|Hne].
      * rewrite IH. split; intros [post H]; exists post; congruence.
      * split; [discriminate | intros [post H]; congruence].
Qed.

Lemma includes_iff (s t : string) :
  Str.includes s t = true <-> exists pre post, s = (pre ++ t ++ post)%string.
Proof.
  induction s as [|c s IH].
  - cbn [Str.includes]. rewrite orb_false_r, prefix_iff. split.
    + intros [post H]. now exists EmptyString, post.
    + intros [pre [post H]]. destruct pre; simpl in H; [now exists post | discriminate].
  - cbn [Str.includes]. rewrite orb_true_iff, prefix_iff, IH. split.
    + intros [[post H] | [pre [post H]]].
      * now exists EmptyString, post.
      * exists (String c pre), post. simpl. now rewrite H.
    + intros [pre [post H]]. destruct pre as [|c' pre]; simpl in H.
      * left. now exists post.
      * right. exists pre, post. congruence.
Qed.

Lemma isSalesLike_iff (col : ColDef) :
  isSalesLike col = true <-> SalesLike (field col).
Proof.
  unfold isSalesLike, SalesLike, ContainsIgnoringCase.
  now rewrite orb_true_iff, !includes_iff.
Qed.

Lemma isSalesLike_named (col : ColDef) :
  isSalesLike col = true -> truthy (JStr (field col)) = true.
Proof.
  unfold isSalesLike. destruct (field col); [discriminate | reflexivity].
Qed.

Lemma find_first {A} (f : A -> bool) (pre : list A) (x : A) (post : list A) :
  Forall (fun y => f y = false) pre -> f x = true ->
  List.find f (pre ++ x :: post) = Some x.
Proof.
  induction 1 as [|y pre Hy _ IH]; intros Hx; simpl.
  - now rewrite Hx.
  - rewrite Hy. now apply IH.
Qed.

Lemma find_none {A} (f : A -> bool) (l : list A) :
  Forall (fun y => f y = false) l -> List.find f l = None.
Proof.
  induction 1 as [|y l Hy _ IH]; simpl; [reflexivity | now rewrite Hy].
Qed.

Lemma not_salesLike (cols : list ColDef) :
  Forall (fun col => ~ SalesLike (field col)) cols ->
  Forall (fun col => isSalesLike col = false) cols.
Proof.
  intros Hall. eapply Forall_impl; [exact Hall |]. intros col H.
  destruct (isSalesLike col) eqn:E; [|reflexivity].
  now apply isSalesLike_iff in E.
Qed.

Lemma sumField_as_sum (f : string) (filteredData : list Row) :
  sumField f filteredData =
  sumNumbers (List.map (fun row => orZero (parseFloat (getProp row f))) filteredData).
Proof.
  unfold sumField, sumNumbers. generalize Num.zero.
  induction filteredData as [|row rest IH]; intros acc; simpl; [reflexivity | apply IH].
Qed.

Lemma kpis_nonempty (filteredData : list Row) (columnDefs : list ColDef) :
  filteredData <> [] ->
  kpis filteredData columnDefs =
  Some (mkKpis (length filteredData)
          (match salesField columnDefs with
           | Some f => if truthy (JStr f) then sumField f filteredData else Num.zero
           | None => Num.zero
           end)
          (Num.div
             (match salesField columnDefs with
              | Some f => if truthy (JStr f) then sumField f filteredData else Num.zero
              | None => Num.zero
              end)
             (Num.of_nat (length filteredData)))).
Proof.
  intros Hne. unfold kpis.
  destruct filteredData as [|row rest]; [congruence | reflexivity].
Qed.

(** C1, as the code has it. Whatever the dataset and the filters, the
    summary of a non-empty filtered dataset has [totalRows] equal to its
    length and [avgSales] equal to [totalSales / totalRows]; for an empty
    filtered dataset the summary is the empty object, with no [totalRows]
    and no [avgSales] to read, and nothing is divided. *)
Theorem kpis_consistency (Date_parse : string -> Num.float) (rowData : list Row)
    (filterText : string) (dateRange : DateRange) (numericFilters : Obj Bounds)
    (columnDefs : list ColDef) :
  let filtered := filterData Date_parse rowData filterText dateRange numericFilters in
  (filtered = [] ->
   kpis filtered columnDefs = None
   /\ read_totalRows (kpis filtered columnDefs) = JUndefined
   /\ read_avgSales (kpis filtered columnDefs) = JUndefined)
  /\ (filtered <> [] ->
      exists k,
        kpis filtered columnDefs = Some k
        /\ totalRows k = length filtered
        /\ (0 < totalRows k)%nat
        /\ avgSales k = Num.div (totalSales k) (Num.of_nat (totalRows k))).
Proof.
  intros filtered. split.
  - intros ->. now cbn.
  - intros Hne. rewrite (kpis_nonempty _ columnDefs Hne).
    eexists. split; [reflexivity |]. cbn.
    repeat split. destruct filtered; [congruence | cbn; lia].
Qed.

(** C1, witness: scenario A with no filter set. *)
Lemma kpis_consistency_witness :
  exists k,
    kpis (filterData Host.isoDate scenarioA EmptyString
            (mkDateRange EmptyString EmptyString) []) [toColDef "Sales"] = Some k
    /\ totalRows k = 3%nat
    /\ (0 < totalRows k)%nat
    /\ avgSales k = Num.div (totalSales k) (Num.of_nat (totalRows k)).
Proof.
  apply (proj2 (kpis_consistency Host.isoDate scenarioA EmptyString
                  (mkDateRange EmptyString EmptyString) [] [toColDef "Sales"])).
  discriminate.
Defined.

(** C1, counterexample: scenario A searched for a text no record holds.
    The filtered dataset is empty and the summary reports neither
    [totalRows] nor [avgSales]: both read as undefined, not as 0. *)
Lemma kpis_of_empty_reports_nothing :
  filterData Host.isoDate scenarioA "zzz" (mkDateRange EmptyString EmptyString) [] = []
  /\ read_totalRows
       (kpis (filterData Host.isoDate scenarioA "zzz"
                (mkDateRange EmptyString EmptyString) []) [toColDef "Sales"])
     = JUndefined
  /\ read_avgSales
       (kpis (filterData Host.isoDate scenarioA "zzz"
                (mkDateRange EmptyString EmptyString) []) [toColDef "Sales"])
     = JUndefined.
Proof. now vm_compute. Qed.

Lemma orZero_spec (x : Num.float) :
  (Num.isNaN x = true -> orZero x = Num.zero)
  /\ (Num.isNaN x = false -> SFcompare (orZero x) x = Some Eq).
Proof.
  destruct x as [s | s | | s m e]; cbn; split; try discriminate; try reflexivity.
  - intros _. now destruct s.
  - intros _. destruct s; now rewrite Z.compare_refl, Pos.compare_cont_refl.
Qed.

(** C5. For a non-empty filtered dataset, [totalRows] is its length; with
    no descriptor whose name contains sales or revenue (case ignored)
    [totalSales] is 0; otherwise the sales field is the first such
    descriptor and [totalSales] is the sum, over the filtered records in
    order, of that field coerced by [parseFloat], an unparsable value
    counting as 0 and any other as the number it is. On the three records
    of scenario A the totals are 3, 300 and 100. *)
Theorem kpis_total_sales :
  (forall (filteredData : list Row) (columnDefs : list ColDef),
      filteredData <> [] ->
      exists k,
        kpis filteredData columnDefs = Some k
        /\ totalRows k = length filteredData
        /\ (Forall (fun col => ~ SalesLike (field col)) columnDefs ->
            totalSales k = Num.zero)
        /\ (forall pre col post,
               columnDefs = (pre ++ col :: post)%list ->
               Forall (fun c => ~ SalesLike (field c)) pre ->
               SalesLike (field col) ->
               totalSales k =
               sumNumbers
                 (List.map (fun row => orZero (parseFloat (getProp row (field col))))
                    filteredData)))
  /\ (forall x,
         (Num.isNaN x = true -> orZero x = Num.zero)
         /\ (Num.isNaN x = false -> SFcompare (orZero x) x = Some Eq))
  /\ kpis scenarioA [toColDef "Sales"]
     = Some (mkKpis 3 (Num.of_Z 300) (Num.of_Z 100)).
Proof.
  split; [|split; [exact orZero_spec | now vm_compute]].
  intros filteredData columnDefs Hne.
  rewrite (kpis_nonempty _ columnDefs Hne).
  eexists. split; [reflexivity |]. cbn [totalRows totalSales].
  split; [reflexivity | split].
  - intros Hnone. unfold salesField.
    now rewrite (find_none _ _ (not_salesLike _ Hnone)).
  - intros pre col post -> Hpre Hcol. unfold salesField.
    apply isSalesLike_iff in Hcol.
    rewrite (find_first _ _ _ _ (not_salesLike _ Hpre) Hcol). cbn [option_map].
    rewrite (isSalesLike_named _ Hcol). apply sumField_as_sum.
Qed.

(** C5, witness: scenario A, its sales field found behind a column that is
    not one. *)
Lemma kpis_total_sales_witness :
  exists k,
    kpis scenarioA [toColDef "Region"; toColDef "Net Revenue"; toColDef "Sales"] = Some k
    /\ totalRows k = 3%nat
    /\ (Forall (fun col => ~ SalesLike (field col))
          [toColDef "Region"; toColDef "Net Revenue"; toColDef "Sales"] ->
        totalSales k = Num.zero)
    /\ (forall pre col post,
           [toColDef "Region"; toColDef "Net Revenue"; toColDef "Sales"]
           = (pre ++ col :: post)%list ->
           Forall (fun c => ~ SalesLike (field c)) pre ->
           SalesLike (field col) ->
           totalSales k =
           sumNumbers
             (List.map (fun row => orZero (parseFloat (getProp row (field col))))
                scenarioA)).
Proof.
  apply (proj1 kpis_total_sales scenarioA
           [toColDef "Region"; toColDef "Net Revenue"; toColDef "Sales"]).
  discriminate.
Defined.

(** ** Plain objects: reading after writing *)

Section ObjectLemmas.

Context {V : Type}.

Lemma getOwn_addOwn_same (o : Obj V) (k : string) (v : V) :
  getOwn o k = None -> getOwn (addOwn o k v) k = Some v.
Proof.
  induction o as [|[k' v'] o IH]; simpl.
  - now rewrite String.eqb_refl.
  - destruct (String.eqb k' k) eqn:E; [discriminate |]. intros Hnone.
    destruct (arrayIndex k) as [i|], (arrayIndex k') as [i'|];
      try destruct (i <? i'); simpl; rewrite ?String.eqb_refl, ?E; auto.
Qed.

Lemma getOwn_addOwn_other (o : Obj V) (k k' : string) (v : V) :
  k' <> k -> getOwn (addOwn o k v) k' = getOwn o k'.
Proof.
  intros Hne. apply String.eqb_neq in Hne. rewrite String.eqb_sym in Hne.
  induction o as [|[k0 v0] o IH]; simpl.
  - now rewrite Hne.
  - destruct (arrayIndex k) as [i|], (arrayIndex k0) as [i0|];
      try destruct (i <? i0); simpl; rewrite ?Hne, ?IH; reflexivity.
Qed.

Lemma getOwn_replaceOwn_same (o : Obj V) (k : string) (v v0 : V) :
  getOwn o k = Some v0 -> getOwn (replaceOwn o k v) k = Some v.
Proof.
  induction o as [|[k' v'] o IH]; simpl; [discriminate |].
  destruct (String.eqb k' k) eqn:E; simpl; rewrite E; auto.
Qed.

Lemma getOwn_replaceOwn_other (o : Obj V) (k k' : string) (v : V) :
  k' <> k -> getOwn (replaceOwn o k v) k' = getOwn o k'.
Proof.
  intros Hne.
  induction o as [|[k0 v0] o IH]; simpl; [reflexivity |].
  destruct (String.eqb k0 k) eqn:E; simpl.
  - apply String.eqb_eq in E. subst k0.
    apply String.eqb_neq in Hne. rewrite String.eqb_sym in Hne. now rewrite Hne.
  - now rewrite IH.
Qed.

Lemma getOwn_setProp_same (o : Obj V) (k : string) (v : V) :
  k <> "__proto__" -> getOwn (setProp o k v) k = Some v.
Proof.
  intros Hk. apply String.eqb_neq in Hk. unfold setProp. rewrite Hk.
  destruct (getOwn o k) eqn:E.
  - eapply getOwn_replaceOwn_same; eauto.
  - now apply getOwn_addOwn_same.
Qed.

Lemma getOwn_setProp_other (o : Obj V) (k k' : string) (v : V) :
  k' <> k -> getOwn (setProp o k v) k' = getOwn o k'.
Proof.
  intros Hne. unfold setProp.
  destruct (String.eqb k "__proto__"); [reflexivity |].
  destruct (getOwn o k).
  - now apply getOwn_replaceOwn_other.
  - now apply getOwn_addOwn_other.
Qed.

End ObjectLemmas.

(** ** The aggregation engine: chart data *)

Lemma seriesTotal_imap (g : nat -> string) (counts : Obj Count) :
  seriesTotal (imap (fun i '(name, value) => mkSlice name value (g i)) counts)
  = countsTotal counts.
Proof.
  revert g. induction counts as [|[k c] counts IH]; intros g; [reflexivity |].
  rewrite imap_cons. cbn [seriesTotal countsTotal fold_right count snd].
  fold (seriesTotal (imap ((fun i '(name, value) => mkSlice name value (g i)) ∘ S) counts)).
  fold (countsTotal counts).
  now rewrite <- (IH (g ∘ S)).
Qed.

Lemma countsTotal_numeric (counts : Obj Count) (t : nat) (k : string) (c : Count) :
  countsTotal counts = Some t -> getOwn counts k = Some c -> exists m, c = CNum m.
Proof.
  revert t. induction counts as [|[k' c'] counts IH]; intros t; simpl; [discriminate |].
  destruct c' as [n|s]; [|discriminate].
  destruct (countsTotal counts) as [t'|] eqn:Ht; [|discriminate].
  intros _. destruct (String.eqb k' k).
  - intros [= <-]. now exists n.
  - now apply (IH t').
Qed.

Lemma countsTotal_addOwn (counts : Obj Count) (k : string) (n : nat) :
  countsTotal (addOwn counts k (CNum n))
  = option_map (fun t => (n + t)%nat) (countsTotal counts).
Proof.
  induction counts as [|[k' c'] counts IH]; [reflexivity |].
  assert (Hskip :
    countsTotal ((k', c') :: addOwn counts k (CNum n))
    = option_map (fun t => (n + t)%nat) (countsTotal ((k', c') :: counts))).
  { cbn [countsTotal fold_right snd]. fold (countsTotal (addOwn counts k (CNum n))).
    fold (countsTotal counts). rewrite IH.
    destruct c' as [m|s]; [|reflexivity].
    destruct (countsTotal counts) as [t|]; [|reflexivity].
    cbn. f_equal. lia. }
  cbn [addOwn].
  destruct (arrayIndex k) as [i|], (arrayIndex k') as [i'|];
    try destruct (i <? i'); try exact Hskip; reflexivity.
Qed.

Lemma countsTotal_replaceOwn (counts : Obj Count) (k : string) (m t : nat) :
  getOwn counts k = Some (CNum m) -> countsTotal counts = Some t ->
  countsTotal (replaceOwn counts k (CNum (S m))) = Some (S t).
Proof.
  revert t. induction counts as [|[k' c'] counts IH]; intros t; simpl; [discriminate |].
  destruct (String.eqb k' k).
  - intros [= ->]. simpl.
    destruct (countsTotal counts) as [t'|]; [|discriminate]. now intros [= <-].
  - intros Hget. destruct c' as [n|s]; [|discriminate].
    destruct (countsTotal counts) as [t'|] eqn:Ht; [|discriminate].
    intros [= <-]. simpl. rewrite (IH t' Hget eq_refl). f_equal. lia.
Qed.

Lemma protoMember_proto : protoMember "__proto__" <> None.
Proof. discriminate. Qed.

Lemma bump_total (g : string) (counts : Obj Count) (row : Row) (t : nat) :
  protoMember (categoryKey g row) = None ->
  countsTotal counts = Some t ->
  countsTotal (bump g counts row) = Some (S t).
Proof.
  intros Hsafe Ht. unfold bump, readCount, setProp.
  set (key := categoryKey g row) in *.
  assert (Hkey : String.eqb key "__proto__" = false).
  { apply String.eqb_neq. intros E. rewrite E in Hsafe. now apply protoMember_proto. }
  rewrite Hkey, Hsafe.
  destruct (getOwn counts key) as [c|] eqn:Hget.
  - destruct (countsTotal_numeric _ _ _ _ Ht Hget) as [m ->].
    now apply countsTotal_replaceOwn.
  - cbn [option_map plusOne]. now rewrite countsTotal_addOwn, Ht.
Qed.

Lemma countRows_total (g : string) (filteredData : list Row) :
  Forall (fun row => protoMember (categoryKey g row) = None) filteredData ->
  countsTotal (countRows g filteredData) = Some (length filteredData).
Proof.
  intros Hsafe. unfold countRows.
  assert (Hfold : forall counts t,
    countsTotal counts = Some t ->
    countsTotal (fold_left (bump g) filteredData counts)
    = Some (t + length filteredData)%nat).
  { induction Hsafe as [|row rest Hrow _ IH]; intros counts t Ht; simpl.
    - rewrite Ht. f_equal. lia.
    - rewrite (IH _ (S t)); [f_equal; lia | now apply bump_total]. }
  now apply (Hfold [] 0%nat).
Qed.

(** Where no record is grouped under the name of an inherited member, the
    counts of the series add up to the number of records. *)
Lemma chartData_counts_sum (filteredData : list Row) :
  Forall (fun row => protoMember (categoryKey (groupByField filteredData) row) = None)
    filteredData ->
  seriesTotal (chartData filteredData) = Some (length filteredData).
Proof.
  intros Hsafe. unfold chartData.
  destruct (Nat.eqb (length filteredData) 0) eqn:E.
  - apply Nat.eqb_eq in E. now rewrite E.
  - rewrite (seriesTotal_imap (fun i => nth (i mod length COLORS)%nat COLORS EmptyString)).
    now apply countRows_total.
Qed.

Lemma protoMember_truthy (k text : string) :
  protoMember k = Some text -> truthy (JStr text) = true.
Proof.
  unfold protoMember, nativeFunctionText.
  destruct (String.eqb k "__proto__"); [now intros [= <-] |].
  destruct (String.eqb k "constructor"); [now intros [= <-] |].
  destruct (existsb _ _); [now intros [= <-] | discriminate].
Qed.

(** C6, where the code fails it. A record grouped under [__proto__] is
    counted nowhere: reading [counts.__proto__] finds [Object.prototype],
    and the assignment of the string made from it is ignored, so [counts]
    stays as it was. A record grouped for the first time under the name of
    an inherited method, such as [constructor], gets as its count the text
    of that method with 1 appended, a string and not a number. So for one
    record with [__proto__] the series is empty and its counts add up to 0,
    and for one record with [constructor] the counts do not add up at
    all. *)
Theorem chartData_miscounts_inherited_keys :
  (forall g counts row, categoryKey g row = "__proto__" -> bump g counts row = counts)
  /\ (forall g counts row text,
         categoryKey g row <> "__proto__" ->
         protoMember (categoryKey g row) = Some text ->
         getOwn counts (categoryKey g row) = None ->
         getOwn (bump g counts row) (categoryKey g row) = Some (CText (text ++ "1")%string))
  /\ chartData [[("Category", JStr "__proto__")]] = []
  /\ seriesTotal (chartData [[("Category", JStr "__proto__")]]) = Some 0%nat
  /\ length [[("Category", JStr "__proto__")]] = 1%nat
  /\ chartData [[("Category", JStr "constructor")]]
     = [mkSlice "constructor" (CText "function Object() { [native code] }1") "#3B82F6"]
  /\ seriesTotal (chartData [[("Category", JStr "constructor")]]) = None.
Proof.
  split; [|split; [|now vm_compute]].
  - intros g counts row Hkey. unfold bump, setProp. now rewrite Hkey.
  - intros g counts row text Hkey Hproto Hown. unfold bump.
    rewrite (getOwn_setProp_same _ _ _ Hkey).
    unfold readCount. rewrite Hown, Hproto. cbn [option_map plusOne].
    now rewrite (protoMember_truthy _ _ Hproto).
Qed.






(** ** Ingestion *)

Section UploadProperties.

Variable Date_parse : string -> Num.float.
Variable Papa_parse : string -> ParseResults.
Variable XLSX_rows : string -> option (list Row).

(** The part of C7 the code meets: an upload for which the handler finds
    an extension (the last piece of the name, or the whole name without a
    dot) that is none of csv, xlsx and xls raises the alert and leaves the
    whole session state, the dataset included, as it was. *)
Theorem unsupported_upload_changes_nothing (st : State) (file : File) :
  fileExtension file <> "csv" ->
  fileExtension file <> "xlsx" ->
  fileExtension file <> "xls" ->
  onFileUpload Date_parse Papa_parse XLSX_rows st file
  = (st, [Alert "Unsupported format. Please upload CSV or Excel."; ClearFileInput]).
Proof.
  intros Hcsv Hxlsx Hxls. unfold onFileUpload.
  apply String.eqb_neq in Hcsv, Hxlsx, Hxls.
  cbn [existsb]. now rewrite Hcsv, Hxlsx, Hxls.
Qed.

(** C8. A successful ingestion puts the parsed records and their column
    descriptors in place of the dataset and leaves the search text, the
    date range and the numeric bounds as they were; the filtered dataset is
    the new records under those same filters. *)
Theorem ingestion_replaces_dataset_keeps_filters (st : State) (file : File)
    (rows : list Row) (cols : list ColDef) :
  Ingests Papa_parse XLSX_rows file rows cols ->
  let st' := fst (onFileUpload Date_parse Papa_parse XLSX_rows st file) in
  rowData st' = rows
  /\ columnDefs st' = cols
  /\ filterText st' = filterText st
  /\ dateRange st' = dateRange st
  /\ numericFilters st' = numericFilters st
  /\ filteredData st'
     = filterData Date_parse rows (filterText st) (dateRange st) (numericFilters st).
Proof.
  intros Hing st'. subst st'. unfold onFileUpload.
  destruct Hing as [Hcsv | jsonData Hext Hread].
  - rewrite Hcsv. cbn. repeat split.
  - assert (Hnot : String.eqb (fileExtension file) "csv" = false).
    { apply String.eqb_neq. intros E. rewrite E in Hext.
      destruct Hext as [H | [H | []]]; discriminate. }
    assert (Hsheet : existsb (String.eqb (fileExtension file)) ["xlsx"; "xls"]%list = true).
    { apply existsb_exists. exists (fileExtension file).
      split; [exact Hext | apply String.eqb_refl]. }
    rewrite Hnot, Hsheet, Hread. cbn. repeat split.
Qed.

End UploadProperties.

(** An instance: a text file uploaded into a busy session. *)
Lemma unsupported_upload_changes_nothing_witness :
  onFileUpload Host.isoDate (fun _ => mkParseResults [] []) (fun _ => None)
    busyState (mkFile "notes.TXT" "a,b")
  = (busyState, [Alert "Unsupported format. Please upload CSV or Excel."; ClearFileInput]).
Proof.
  apply (unsupported_upload_changes_nothing Host.isoDate
           (fun _ => mkParseResults [] []) (fun _ => None)
           busyState (mkFile "notes.TXT" "a,b"));
    vm_compute; discriminate.
Defined.

(** C8, witness: a delimited-text file uploaded into a busy session. *)
Lemma ingestion_replaces_dataset_keeps_filters_witness :
  rowData
    (fst (onFileUpload Host.isoDate (fun _ => mkParseResults mixedRegions ["Region"])
            (fun _ => None) busyState (mkFile "regions.csv" "Region")))
  = mixedRegions
  /\ filterText
       (fst (onFileUpload Host.isoDate (fun _ => mkParseResults mixedRegions ["Region"])
               (fun _ => None) busyState (mkFile "regions.csv" "Region")))
     = "zzz".
Proof.
  pose proof (ingestion_replaces_dataset_keeps_filters Host.isoDate
                (fun _ => mkParseResults mixedRegions ["Region"]) (fun _ => None)
                busyState (mkFile "regions.csv" "Region")
                mixedRegions [toColDef "Region"]
                (Ingests_csv _ _ (mkFile "regions.csv" "Region") eq_refl))
    as (Hrows & _ & Htext & _).
  split; [exact Hrows | exact Htext].
Defined.

(** ** The token relay *)

Import PowerBiToken.

Lemma missing_falsy (v : option string) :
  missing v -> negb (truthy (setting v)) = true.
Proof. intros [-> | ->]; reflexivity. Qed.

(** C9. With one of the five settings missing, the handler answers at once
    with status 500 and a body whose [error] member is a non-empty string,
    and makes no request, whatever the network would have answered. *)
Theorem incomplete_configuration_fails_fast (env : Env) :
  incompleteEnv env ->
  GET env = Ret incomplete
  /\ status incomplete = 500
  /\ (exists message,
        getOwn (responseBody incomplete) "error" = Some (JStr message)
        /\ message <> EmptyString)
  /\ (forall net i, run net i (GET env) = ([], incomplete)).
Proof.
  intros Hmissing.
  assert (Hget : GET env = Ret incomplete).
  { unfold GET.
    destruct Hmissing as [H | [H | [H | [H | H]]]]; apply missing_falsy in H;
      rewrite H; rewrite ?orb_true_r; reflexivity. }
  split; [exact Hget | split; [reflexivity | split]].
  - eexists. split; [reflexivity | discriminate].
  - intros net i. now rewrite Hget.
Qed.

(** C9, witness: every setting there but the report id. *)
Lemma incomplete_configuration_fails_fast_witness :
  GET (mkEnv (Some "client") (Some "tenant") (Some "secret") (Some "workspace") None)
  = Ret incomplete
  /\ status incomplete = 500
  /\ (exists message,
        getOwn (responseBody incomplete) "error" = Some (JStr message)
        /\ message <> EmptyString)
  /\ (forall net i,
        run net i
          (GET (mkEnv (Some "client") (Some "tenant") (Some "secret") (Some "workspace")
                  None))
        = ([], incomplete)).
Proof.
  apply (incomplete_configuration_fails_fast
           (mkEnv (Some "client") (Some "tenant") (Some "secret") (Some "workspace") None)).
  do 4 right. now left.
Defined.

(** * Further properties of the code *)

(** ** The filter effect as one pass *)

Lemma filter_and {A} (f g : A -> bool) (l : list A) :
  List.filter g (List.filter f l) = List.filter (fun x => f x && g x) l.
Proof.
  induction l as [|x l IH]; simpl; [reflexivity |].
  destruct (f x); simpl; [destruct (g x) |]; now rewrite IH.
Qed.

Lemma filter_all {A} (l : list A) : List.filter (fun _ => true) l = l.
Proof. induction l as [|x l IH]; simpl; [reflexivity | now rewrite IH]. Qed.

Lemma numericStage_filter (result : list Row) (entry : string * Bounds) :
  numericStage result entry = List.filter (fun row => entryKeeps row entry) result.
Proof.
  destruct entry as [fld b]. unfold numericStage, entryKeeps. cbn [fst snd].
  destruct (_ || _); cbn [negb orb]; [reflexivity | now rewrite filter_all].
Qed.

Lemma numericFilters_filter (numericFilters : Obj Bounds) (result : list Row) :
  fold_left numericStage numericFilters result
  = List.filter (fun row => forallb (entryKeeps row) numericFilters) result.
Proof.
  revert result.
  induction numericFilters as [|entry rest IH]; intros result; cbn [fold_left forallb].
  - now rewrite filter_all.
  - now rewrite IH, numericStage_filter, filter_and.
Qed.

Lemma filterData_filter (Date_parse : string -> Num.float) (rowData : list Row)
    (filterText : string) (dateRange : DateRange) (numericFilters : Obj Bounds) :
  filterData Date_parse rowData filterText dateRange numericFilters
  = List.filter (keeps Date_parse filterText dateRange numericFilters) rowData.
Proof.
  unfold filterData, keeps. rewrite numericFilters_filter.
  destruct (truthy (JStr filterText));
    destruct (truthy (JStr (start dateRange)) || truthy (JStr (end_ dateRange)));
    cbn [negb orb]; rewrite ?filter_and; apply filter_ext; intros row;
    cbn [andb]; now rewrite ?andb_assoc, ?andb_true_r.
Qed.

Lemma text_inactive (filterText : string) :
  negb (truthy (JStr filterText)) = true <-> filterText = EmptyString.
Proof. cbn. rewrite negb_involutive. apply String.eqb_eq. Qed.

Lemma range_inactive (dateRange : DateRange) :
  negb (truthy (JStr (start dateRange)) || truthy (JStr (end_ dateRange))) = true
  <-> start dateRange = EmptyString /\ end_ dateRange = EmptyString.
Proof.
  cbn. rewrite negb_true_iff, orb_false_iff, !negb_false_iff.
  now rewrite !String.eqb_eq.
Qed.

Lemma entry_inactive (b : Bounds) :
  negb (strictNeqEmpty (boundValue (min b)) || strictNeqEmpty (boundValue (max b))) = true
  <-> min b = Some EmptyString /\ max b = Some EmptyString.
Proof.
  rewrite negb_true_iff, orb_false_iff.
  destruct b as [[mn|] [mx|]]; cbn;
    rewrite ?negb_false_iff, ?String.eqb_eq; split;
    try (intros [H1 H2]; try discriminate; split; congruence).
Qed.

(** X1. A record is in the filtered dataset exactly when it is in the
    dataset and passes the text search if a text is set, the date range if
    a start or an end is set, and every entry of the numeric filters that
    has a bound other than the empty string. *)
Theorem filterData_is_conjunction (Date_parse : string -> Num.float)
    (rowData : list Row) (filterText : string) (dateRange : DateRange)
    (numericFilters : Obj Bounds) (row : Row) :
  In row (filterData Date_parse rowData filterText dateRange numericFilters)
  <->
  In row rowData
  /\ (filterText = EmptyString \/ textMatch filterText row = true)
  /\ ((start dateRange = EmptyString /\ end_ dateRange = EmptyString)
      \/ datePass Date_parse dateRange row = true)
  /\ (forall field b,
         In (field, b) numericFilters ->
         (min b = Some EmptyString /\ max b = Some EmptyString)
         \/ numericPass field b row = true).
Proof.
  rewrite filterData_filter, filter_In. unfold keeps.
  rewrite !andb_true_iff, !orb_true_iff, text_inactive, range_inactive, forallb_forall.
  assert (Hentries :
    (forall entry, In entry numericFilters -> entryKeeps row entry = true)
    <-> (forall field b,
            In (field, b) numericFilters ->
            (min b = Some EmptyString /\ max b = Some EmptyString)
            \/ numericPass field b row = true)).
  { split.
    - intros H field b Hin. specialize (H _ Hin). unfold entryKeeps in H.
      cbn [fst snd] in H. now rewrite orb_true_iff, entry_inactive in H.
    - intros H [field b] Hin. unfold entryKeeps. cbn [fst snd].
      rewrite orb_true_iff, entry_inactive. now apply H. }
  rewrite Hentries. tauto.
Qed.

(** X2. Filtering what is already filtered, under the same filters, changes
    nothing. *)
Theorem filterData_idempotent (Date_parse : string -> Num.float)
    (rowData : list Row) (filterText : string) (dateRange : DateRange)
    (numericFilters : Obj Bounds) :
  filterData Date_parse
    (filterData Date_parse rowData filterText dateRange numericFilters)
    filterText dateRange numericFilters
  = filterData Date_parse rowData filterText dateRange numericFilters.
Proof.
  rewrite !filterData_filter, filter_and. apply filter_ext.
  intros row. now destruct (keeps _ _ _ _ row).
Qed.

(** X3. With no search text, no start, no end, and every bound of every
    numeric entry unset or empty, the filtered dataset is the dataset. *)
Theorem filterData_neutral (Date_parse : string -> Num.float)
    (rowData : list Row) (numericFilters : Obj Bounds) :
  Forall (fun entry => unsetOrEmpty (min (snd entry)) = true
                       /\ unsetOrEmpty (max (snd entry)) = true) numericFilters ->
  filterData Date_parse rowData EmptyString (mkDateRange EmptyString EmptyString)
    numericFilters
  = rowData.
Proof.
  intros Hempty. rewrite filterData_filter.
  rewrite <- (filter_all rowData) at 2. apply filter_ext. intros row.
  unfold keeps. cbn [truthy String.eqb negb orb andb start end_].
  apply forallb_forall. intros [field b] Hin.
  rewrite List.Forall_forall in Hempty. destruct (Hempty _ Hin) as [Hmin Hmax].
  unfold entryKeeps. cbn [fst snd] in *.
  rewrite numericPass_unfold, Hmin, Hmax. apply orb_true_r.
Qed.

(** X3, witness: a bound typed and cleared again, and an entry with
    nothing typed. *)
Lemma filterData_neutral_witness :
  filterData Host.isoDate scenarioA EmptyString (mkDateRange EmptyString EmptyString)
    [("Sales", mkBounds (Some EmptyString) None); ("Units", mkBounds None None)]
  = scenarioA.
Proof.
  apply (filterData_neutral Host.isoDate scenarioA
           [("Sales", mkBounds (Some EmptyString) None); ("Units", mkBounds None None)]).
  repeat constructor.
Defined.

(** X4. The order of the entries of the numeric filters does not matter. *)
Theorem filterData_numeric_order (Date_parse : string -> Num.float)
    (rowData : list Row) (filterText : string) (dateRange : DateRange)
    (numericFilters numericFilters' : Obj Bounds) :
  Permutation numericFilters numericFilters' ->
  filterData Date_parse rowData filterText dateRange numericFilters
  = filterData Date_parse rowData filterText dateRange numericFilters'.
Proof.
  intros Hperm. rewrite !filterData_filter. apply filter_ext. intros row.
  unfold keeps. f_equal.
  destruct (forallb (entryKeeps row) numericFilters) eqn:E;
    destruct (forallb (entryKeeps row) numericFilters') eqn:E'; try reflexivity.
  - rewrite forallb_forall in E.
    assert (forallb (entryKeeps row) numericFilters' = true) as H.
    { apply forallb_forall. intros e He. apply E.
      eapply Permutation_in; [symmetry; exact Hperm | exact He]. }
    congruence.
  - rewrite forallb_forall in E'.
    assert (forallb (entryKeeps row) numericFilters = true) as H.
    { apply forallb_forall. intros e He. apply E'.
      eapply Permutation_in; [exact Hperm | exact He]. }
    congruence.
Qed.

(** X4, witness: two entries either way round. *)
Lemma filterData_numeric_order_witness :
  filterData Host.isoDate scenarioA EmptyString (mkDateRange EmptyString EmptyString)
    [("Sales", mkBounds (Some "150") None); ("Units", mkBounds None (Some EmptyString))]
  = filterData Host.isoDate scenarioA EmptyString (mkDateRange EmptyString EmptyString)
      [("Units", mkBounds None (Some EmptyString)); ("Sales", mkBounds (Some "150") None)].
Proof.
  apply (filterData_numeric_order Host.isoDate scenarioA EmptyString
           (mkDateRange EmptyString EmptyString)).
  apply perm_swap.
Defined.

(** X5. Records are filtered one by one: the filtered dataset of two
    datasets put end to end is their filtered datasets put end to end. *)
Theorem filterData_app (Date_parse : string -> Num.float)
    (rowData rowData' : list Row) (filterText : string) (dateRange : DateRange)
    (numericFilters : Obj Bounds) :
  filterData Date_parse (rowData ++ rowData')%list filterText dateRange numericFilters
  = (filterData Date_parse rowData filterText dateRange numericFilters
     ++ filterData Date_parse rowData' filterText dateRange numericFilters)%list.
Proof. rewrite !filterData_filter. apply List.filter_app. Qed.

Lemma lower_char_idempotent (c : ascii) :
  Str.lower_char (Str.lower_char c) = Str.lower_char c.
Proof.
  destruct c as [[] [] [] [] [] [] [] []]; reflexivity.
Qed.

Lemma toLowerCase_idempotent (s : string) :
  Str.toLowerCase (Str.toLowerCase s) = Str.toLowerCase s.
Proof.
  induction s as [|c s IH]; simpl; [reflexivity |].
  now rewrite lower_char_idempotent, IH.
Qed.

Lemma toLowerCase_empty (s : string) :
  String.eqb (Str.toLowerCase s) EmptyString = String.eqb s EmptyString.
Proof. now destruct s. Qed.

(** X6. The search ignores the case of the text typed: a text and the same
    text in lower case leave the same records, whatever the other filters. *)
Theorem search_ignores_case (Date_parse : string -> Num.float)
    (rowData : list Row) (filterText : string) (dateRange : DateRange)
    (numericFilters : Obj Bounds) :
  filterData Date_parse rowData (Str.toLowerCase filterText) dateRange numericFilters
  = filterData Date_parse rowData filterText dateRange numericFilters.
Proof.
  rewrite !filterData_filter. apply filter_ext. intros row.
  unfold keeps, textMatch. cbn [truthy].
  now rewrite toLowerCase_empty, toLowerCase_idempotent.
Qed.

Lemma parseFloat_undefined : Num.isNaN (parseFloat JUndefined) = true.
Proof. reflexivity. Qed.

Lemma set_bound_guards (x : option string) :
  unsetOrEmpty x = false -> strictNeqEmpty (boundValue x) = true.
Proof. destruct x as [v|]; cbn; [now intros -> | discriminate]. Qed.

(** X7. A numeric entry with a bound that is not empty, on a field that no
    record of the dataset has, leaves no record at all: the missing value
    reads as NaN and fails the bound. So a bound kept from an earlier
    dataset empties a new dataset that lacks the column. *)
Theorem bound_on_missing_field_empties (Date_parse : string -> Num.float)
    (rowData : list Row) (filterText : string) (dateRange : DateRange)
    (numericFilters : Obj Bounds) (field : string) (b : Bounds) :
  In (field, b) numericFilters ->
  unsetOrEmpty (min b) = false \/ unsetOrEmpty (max b) = false ->
  Forall (fun row => getProp row field = JUndefined) rowData ->
  filterData Date_parse rowData filterText dateRange numericFilters = [].
Proof.
  intros Hin Hset Hmissing.
  destruct (filterData Date_parse rowData filterText dateRange numericFilters)
    as [|row rest] eqn:E; [reflexivity | exfalso].
  assert (Hrow : In row (filterData Date_parse rowData filterText dateRange numericFilters))
    by (rewrite E; now left).
  rewrite filterData_filter in Hrow. apply filter_In in Hrow as [Hdata Hkeeps].
  rewrite List.Forall_forall in Hmissing. specialize (Hmissing _ Hdata).
  unfold keeps in Hkeeps. apply andb_true_iff in Hkeeps as [_ Hall].
  rewrite forallb_forall in Hall. specialize (Hall _ Hin).
  unfold entryKeeps in Hall. cbn [fst snd] in Hall.
  rewrite numericPass_unfold, Hmissing in Hall.
  assert (Hnan : parseFloat JUndefined = S754_nan) by reflexivity.
  rewrite Hnan, ge_nan_l, le_nan_l, !orb_false_r in Hall.
  assert (Hguard :
    strictNeqEmpty (boundValue (min b)) || strictNeqEmpty (boundValue (max b)) = true).
  { destruct Hset as [Hset|Hset]; apply set_bound_guards in Hset; rewrite Hset;
      [reflexivity | apply orb_true_r]. }
  rewrite Hguard in Hall. cbn [negb orb] in Hall.
  destruct Hset as [Hset|Hset]; rewrite Hset in Hall;
    [discriminate | now rewrite andb_false_r in Hall].
Qed.

(** X7, witness: a bound on [Sales] kept while the dataset has no such
    column. *)
Lemma bound_on_missing_field_empties_witness :
  filterData Host.isoDate mixedRegions EmptyString (mkDateRange EmptyString EmptyString)
    [("Sales", mkBounds (Some "150") None)]
  = [].
Proof.
  apply (bound_on_missing_field_empties Host.isoDate mixedRegions EmptyString
           (mkDateRange EmptyString EmptyString)
           [("Sales", mkBounds (Some "150") None)] "Sales" (mkBounds (Some "150") None)).
  - now left.
  - now left.
  - repeat constructor.
Defined.

(** ** The categories of the chart *)

(** X8. Where no record is grouped under the name of a member that an
    object literal inherits, every count of the series is a number and the
    counts add up to the number of records. *)
Theorem chartData_counts_add_up (filteredData : list Row) :
  Forall (fun row => protoMember (categoryKey (groupByField filteredData) row) = None)
    filteredData ->
  seriesTotal (chartData filteredData) = Some (length filteredData).
Proof. apply chartData_counts_sum. Qed.

(** X8, witness: the six records grouped on [Region]. *)
Lemma chartData_counts_add_up_witness :
  seriesTotal (chartData mixedRegions) = Some 6%nat.
Proof.
  apply (chartData_counts_add_up mixedRegions).
  repeat constructor.
Defined.

Section KeysLemmas.

Context {V : Type}.

Lemma in_keys_getOwn (o : Obj V) (k : string) :
  In k (keys o) <-> getOwn o k <> None.
Proof.
  induction o as [|[k' v'] o IH]; simpl.
  - split; [intros [] | congruence].
  - destruct (String.eqb k' k) eqn:E.
    + apply String.eqb_eq in E. split; [discriminate | now left].
    + apply String.eqb_neq in E. rewrite <- IH. split; [intros [H|H] | ]; tauto.
Qed.

Lemma keys_replaceOwn (o : Obj V) (k : string) (v : V) :
  keys (replaceOwn o k v) = keys o.
Proof.
  induction o as [|[k' v'] o IH]; simpl; [reflexivity |].
  destruct (String.eqb k' k); simpl; [reflexivity | now rewrite IH].
Qed.

Lemma keys_addOwn (o : Obj V) (k : string) (v : V) :
  Permutation (keys (addOwn o k v)) (k :: keys o).
Proof.
  induction o as [|[k' v'] o IH]; [reflexivity |].
  assert (Hskip : Permutation (keys ((k', v') :: addOwn o k v)) (k :: keys ((k', v') :: o))).
  { cbn [keys List.map fst] in *. rewrite IH. apply perm_swap. }
  cbn [addOwn].
  destruct (arrayIndex k) as [i|], (arrayIndex k') as [i'|];
    try destruct (i <? i'); try exact Hskip; reflexivity.
Qed.

Lemma keys_setProp_NoDup (o : Obj V) (k : string) (v : V) :
  List.NoDup (keys o) -> List.NoDup (keys (setProp o k v)).
Proof.
  intros Hnd. unfold setProp.
  destruct (String.eqb k "__proto__"); [exact Hnd |].
  destruct (getOwn o k) eqn:E.
  - now rewrite keys_replaceOwn.
  - eapply Permutation_NoDup; [symmetry; apply keys_addOwn |].
    constructor; [|exact Hnd]. rewrite in_keys_getOwn. congruence.
Qed.

Lemma in_keys_setProp (o : Obj V) (k k' : string) (v : V) :
  In k' (keys (setProp o k v)) <-> In k' (keys o) \/ (k' = k /\ k <> "__proto__").
Proof.
  rewrite !in_keys_getOwn.
  destruct (String.eqb k' k) eqn:E.
  - apply String.eqb_eq in E. subst k'.
    destruct (String.eqb k "__proto__") eqn:P.
    + unfold setProp. rewrite P. apply String.eqb_eq in P. tauto.
    + apply String.eqb_neq in P. rewrite (getOwn_setProp_same _ _ _ P).
      split; [intros _; now right | discriminate].
  - apply String.eqb_neq in E. rewrite (getOwn_setProp_other _ _ _ _ E). tauto.
Qed.

End KeysLemmas.

Lemma names_of_series (g : nat -> string) (counts : Obj Count) :
  List.map name (imap (fun i '(name, value) => mkSlice name value (g i)) counts)
  = keys counts.
Proof.
  revert g. induction counts as [|[k c] counts IH]; intros g; [reflexivity |].
  rewrite imap_cons. cbn [List.map keys fst name]. f_equal. apply (IH (g ∘ S)).
Qed.

Lemma chartData_names (filteredData : list Row) :
  List.map name (chartData filteredData)
  = keys (countRows (groupByField filteredData) filteredData).
Proof.
  unfold chartData. destruct filteredData as [|row rest]; [reflexivity |].
  cbn [length Nat.eqb].
  apply (names_of_series (fun i => nth (i mod length COLORS)%nat COLORS EmptyString)).
Qed.

Lemma countRows_NoDup (g : string) (filteredData : list Row) :
  List.NoDup (keys (countRows g filteredData)).
Proof.
  unfold countRows.
  assert (Hfold : forall counts : Obj Count,
    List.NoDup (keys counts) ->
    List.NoDup (keys (fold_left (bump g) filteredData counts))).
  { induction filteredData as [|row rest IH]; intros counts H; cbn [fold_left].
    - exact H.
    - apply IH. now apply keys_setProp_NoDup. }
  apply Hfold. constructor.
Qed.

(** X9. No two entries of the series have the same name. *)
Theorem chartData_names_distinct (filteredData : list Row) :
  List.NoDup (List.map name (chartData filteredData)).
Proof. rewrite chartData_names. apply countRows_NoDup. Qed.

Lemma countRows_keys (g : string) (filteredData : list Row) (n : string) :
  In n (keys (countRows g filteredData))
  <-> n <> "__proto__" /\ exists row, In row filteredData /\ categoryKey g row = n.
Proof.
  unfold countRows.
  assert (Hfold : forall counts : Obj Count,
    In n (keys (fold_left (bump g) filteredData counts))
    <-> In n (keys counts)
        \/ (n <> "__proto__" /\ exists row, In row filteredData /\ categoryKey g row = n)).
  { induction filteredData as [|row rest IH]; intros counts; cbn [fold_left].
    - split; [now left | intros [H | (_ & row & [] & _)]; exact H].
    - rewrite IH. unfold bump. rewrite in_keys_setProp. split.
      + intros [[H | [-> Hk]] | (Hn & r & Hr & Hkey)].
        * now left.
        * right. split; [exact Hk | exists row; split; [now left | reflexivity]].
        * right. split; [exact Hn | exists r; split; [now right | exact Hkey]].
      + intros [H | (Hn & r & [<- | Hr] & Hkey)].
        * left. now left.
        * left. right. subst n. now split.
        * right. split; [exact Hn | now exists r]. }
  rewrite Hfold. cbn [keys List.map]. split; [intros [[] | H]; exact H | now right].
Qed.

(** X10. The names of the series are the labels under which the records
    are grouped, and no others: a name is in the series exactly when some
    record has it as its label, the label [__proto__] apart, which never
    gets an entry. *)
Theorem chartData_names_are_labels (filteredData : list Row) (n : string) :
  In n (List.map name (chartData filteredData))
  <-> n <> "__proto__"
      /\ exists row,
           In row filteredData /\ categoryKey (groupByField filteredData) row = n.
Proof. rewrite chartData_names. apply countRows_keys. Qed.

(** X11. The colours go round the palette: the entry at position [i] is
    filled with the colour at position [i mod 6]. *)
Theorem chartData_fill_cycles (filteredData : list Row) (i : nat) (sl : Slice) :
  chartData filteredData !! i = Some sl ->
  COLORS !! (i mod 6)%nat = Some (fill sl).
Proof.
  unfold chartData. destruct (Nat.eqb (length filteredData) 0); [discriminate |].
  rewrite list_lookup_imap. destruct (_ !! i) as [[k c]|]; [|discriminate].
  intros [= <-]. cbn [fill length COLORS].
  destruct (nth_lookup_or_length COLORS (i mod 6)%nat EmptyString) as [H|H];
    [exact H | exfalso].
  cbn [length COLORS] in H. pose proof (Nat.mod_upper_bound i 6). lia.
Qed.

(** X11, witness: the second entry of the six records grouped on
    [Region]. *)
Lemma chartData_fill_cycles_witness :
  COLORS !! (1 mod 6)%nat = Some "#8B5CF6".
Proof.
  apply (chartData_fill_cycles mixedRegions 1 (mkSlice "Unknown" (CNum 5) "#8B5CF6")).
  reflexivity.
Defined.

(** ** The time series *)

Lemma getOwn_defineOwn_same {V} (o : Obj V) (k : string) (v : V) :
  getOwn (defineOwn o k v) k = Some v.
Proof.
  unfold defineOwn. destruct (getOwn o k) eqn:E.
  - eapply getOwn_replaceOwn_same; eauto.
  - now apply getOwn_addOwn_same.
Qed.

Lemma orZero_not_NaN (x : Num.float) : Num.isNaN (orZero x) = false.
Proof. now destruct x. Qed.

(** X12. The time series has one point for each record whose [Date] is
    truthy, and none for the others (a record with only a lower-case [date]
    among them): it is never longer than the filtered dataset, it is empty
    when no record has a [Date], and every point holds under the value
    field a number that is not NaN. *)
Theorem timeSeriesData_points (Date_parse : string -> Num.float)
    (toLocaleDateString : Num.float -> string) (filteredData : list Row)
    (columnDefs : list ColDef) :
  (length (timeSeriesData Date_parse toLocaleDateString filteredData columnDefs)
   <= length filteredData)%nat
  /\ (Forall (fun row => truthy (getProp row "Date") = false) filteredData ->
      timeSeriesData Date_parse toLocaleDateString filteredData columnDefs = [])
  /\ (forall p,
         In p (timeSeriesData Date_parse toLocaleDateString filteredData columnDefs) ->
         exists row x,
           In row filteredData
           /\ truthy (getProp row "Date") = true
           /\ getOwn p (valueField columnDefs) = Some (JNum x)
           /\ Num.isNaN x = false).
Proof.
  unfold timeSeriesData. split; [|split].
  - rewrite length_map. apply List.filter_length_le.
  - intros Hnone. induction Hnone as [|row rest Hrow _ IH]; [reflexivity |].
    cbn [List.filter]. now rewrite Hrow.
  - intros p Hp. apply in_map_iff in Hp as (row & <- & Hrow).
    apply filter_In in Hrow as [Hin Hdate].
    exists row, (orZero (parseFloat (getProp row (valueField columnDefs)))).
    repeat split; [exact Hin | exact Hdate | | apply orZero_not_NaN].
    unfold timePoint. apply getOwn_defineOwn_same.
Qed.

Lemma valueField_truthy (columnDefs : list ColDef) :
  truthy (JStr (valueField columnDefs)) = true.
Proof.
  unfold valueField, or_else.
  destruct (nth_error columnDefs 1) as [col|]; [|reflexivity].
  destruct (truthy (JStr (field col))) eqn:E; [exact E | reflexivity].
Qed.

Lemma keys_timePoint (Date_parse : string -> Num.float)
    (toLocaleDateString : Num.float -> string) (vf : string) (row : Row) :
  keys (timePoint Date_parse toLocaleDateString vf row)
  = if String.eqb "date" vf then ["date"]
    else match arrayIndex vf with
         | Some _ => [vf; "date"]
         | None => ["date"; vf]
         end.
Proof.
  unfold timePoint, defineOwn. cbn [getOwn].
  destruct (String.eqb "date" vf) eqn:E.
  - cbn [replaceOwn]. now rewrite E.
  - cbn [addOwn]. destruct (arrayIndex vf); reflexivity.
Qed.

(** X13. What the line and the area plot. With a point in the series, the
    key they read is the value field when that is neither [date] nor the
    digits of an array index; for a value field named like an array index
    (a column headed 2023, say) the key is [date], since such a key is
    enumerated first; and for a value field named [date] the point has one
    key only and the key read falls back to [value]. *)
Theorem seriesDataKey_cases (Date_parse : string -> Num.float)
    (toLocaleDateString : Num.float -> string) (filteredData : list Row)
    (columnDefs : list ColDef) :
  timeSeriesData Date_parse toLocaleDateString filteredData columnDefs <> [] ->
  (valueField columnDefs <> "date" ->
   arrayIndex (valueField columnDefs) = None ->
   seriesDataKey (timeSeriesData Date_parse toLocaleDateString filteredData columnDefs)
   = valueField columnDefs)
  /\ (arrayIndex (valueField columnDefs) <> None ->
      seriesDataKey (timeSeriesData Date_parse toLocaleDateString filteredData columnDefs)
      = "date")
  /\ (valueField columnDefs = "date" ->
      seriesDataKey (timeSeriesData Date_parse toLocaleDateString filteredData columnDefs)
      = "value").
Proof.
  intros Hne. unfold timeSeriesData in *.
  destruct (List.filter (fun row => truthy (getProp row "Date")) filteredData)
    as [|row rest]; [exfalso; now apply Hne |].
  cbn [List.map]. unfold seriesDataKey. rewrite keys_timePoint.
  split; [|split].
  - intros Hdate Hidx. apply not_eq_sym, String.eqb_neq in Hdate.
    rewrite Hdate, Hidx. cbn [nth_error]. unfold or_else.
    now rewrite valueField_truthy.
  - intros Hidx. destruct (String.eqb "date" (valueField columnDefs)) eqn:E.
    + apply String.eqb_eq in E. rewrite <- E in Hidx. now contradiction Hidx.
    + destruct (arrayIndex (valueField columnDefs)); [reflexivity | congruence].
  - intros Hdate. now rewrite Hdate.
Qed.

(** X13, witness: a dataset whose second column is headed 2023. *)
Lemma seriesDataKey_cases_witness :
  seriesDataKey
    (timeSeriesData Host.isoDate Conv.numberToString
       [[("2023", JStr "12"); ("Date", JStr "2024-01-01")]]
       [toColDef "Date"; toColDef "2023"])
  = "date".
Proof.
  apply (seriesDataKey_cases Host.isoDate Conv.numberToString
           [[("2023", JStr "12"); ("Date", JStr "2024-01-01")]]
           [toColDef "Date"; toColDef "2023"]); discriminate.
Defined.

(** ** The session *)

Lemma initial_filtered (Date_parse : string -> Num.float) :
  filterData Date_parse [] EmptyString (mkDateRange EmptyString EmptyString) [] = [].
Proof. reflexivity. Qed.

Lemma upload_cases (Date_parse : string -> Num.float)
    (Papa_parse : string -> ParseResults) (XLSX_rows : string -> option (list Row))
    (st : State) (file : File) :
  fst (onFileUpload Date_parse Papa_parse XLSX_rows st file) = st
  \/ exists rows cols,
       Ingests Papa_parse XLSX_rows file rows cols
       /\ fst (onFileUpload Date_parse Papa_parse XLSX_rows st file)
          = filterEffect Date_parse (setColumnDefs cols (setRowData rows st)).
Proof.
  unfold onFileUpload.
  destruct (String.eqb (fileExtension file) "csv") eqn:Ecsv.
  - right. apply String.eqb_eq in Ecsv. eexists _, _. split; [now constructor | reflexivity].
  - destruct (existsb _ _) eqn:Esheet; [|now left].
    destruct (XLSX_rows (fileData file)) as [jsonData|] eqn:Eread; [|now left].
    right. eexists _, _. split; [|reflexivity].
    apply Ingests_sheet; [|exact Eread].
    apply existsb_exists in Esheet as (x & Hin & Hx).
    apply String.eqb_eq in Hx. now subst x.
Qed.

(** X16. Reset All, from any state, gives the state the component starts
    in but for the embed configuration, which it keeps; the summary, the
    series of the chart and the time series of that state are all empty. *)
Theorem refresh_resets (Date_parse : string -> Num.float)
    (Papa_parse : string -> ParseResults) (XLSX_rows : string -> option (list Row))
    (toLocaleDateString : Num.float -> string) (st : State) :
  step Date_parse Papa_parse XLSX_rows st Refresh
  = setPbiEmbedConfig (pbiEmbedConfig st) initialState
  /\ kpis (filteredData (step Date_parse Papa_parse XLSX_rows st Refresh))
       (columnDefs (step Date_parse Papa_parse XLSX_rows st Refresh)) = None
  /\ chartData (filteredData (step Date_parse Papa_parse XLSX_rows st Refresh)) = []
  /\ timeSeriesData Date_parse toLocaleDateString
       (filteredData (step Date_parse Papa_parse XLSX_rows st Refresh))
       (columnDefs (step Date_parse Papa_parse XLSX_rows st Refresh)) = [].
Proof. repeat split. Qed.

Lemma getOwn_defineOwn_other {V} (o : Obj V) (k k' : string) (v : V) :
  k' <> k -> getOwn (defineOwn o k v) k' = getOwn o k'.
Proof.
  intros Hne. unfold defineOwn. destruct (getOwn o k).
  - now apply getOwn_replaceOwn_other.
  - now apply getOwn_addOwn_other.
Qed.

(** X17. Typing a lower and an upper bound for a column, in either order,
    leaves the entry of that column with both; the entries of the other
    columns, the search text and the date range stay as they were. *)
Theorem bounds_typed_are_kept (Date_parse : string -> Num.float)
    (Papa_parse : string -> ParseResults) (XLSX_rows : string -> option (list Row))
    (st : State) (field lower upper : string) :
  let step := step Date_parse Papa_parse XLSX_rows in
  let st1 := step (step st (MinBound field lower)) (MaxBound field upper) in
  let st2 := step (step st (MaxBound field upper)) (MinBound field lower) in
  getOwn (numericFilters st1) field = Some (mkBounds (Some lower) (Some upper))
  /\ getOwn (numericFilters st2) field = Some (mkBounds (Some lower) (Some upper))
  /\ (forall other, other <> field ->
        getOwn (numericFilters st1) other = getOwn (numericFilters st) other
        /\ getOwn (numericFilters st2) other = getOwn (numericFilters st) other)
  /\ filterText st1 = filterText st /\ dateRange st1 = dateRange st
  /\ filterText st2 = filterText st /\ dateRange st2 = dateRange st.
Proof.
  cbn zeta. cbn [step filterEffect onMinChange onMaxChange setNumericFilters
                 setFilteredData numericFilters filterText dateRange].
  rewrite !getOwn_defineOwn_same. cbn [min max].
  repeat split.
  - now rewrite !getOwn_defineOwn_other.
  - now rewrite !getOwn_defineOwn_other.
Qed.

Lemma ingestion_seen (Date_parse : string -> Num.float)
    (Papa_parse : string -> ParseResults) (XLSX_rows : string -> option (list Row))
    (st : State) (file : File) (rows : list Row) (cols : list ColDef) :
  Ingests Papa_parse XLSX_rows file rows cols ->
  fst (onFileUpload Date_parse Papa_parse XLSX_rows st file)
  = filterEffect Date_parse (setColumnDefs cols (setRowData rows st)).
Proof.
  intros Hing. unfold onFileUpload.
  destruct Hing as [Hcsv | jsonData Hext Hread].
  - now rewrite Hcsv.
  - assert (Hnot : String.eqb (fileExtension file) "csv" = false).
    { apply String.eqb_neq. intros E. rewrite E in Hext.
      destruct Hext as [H | [H | []]]; discriminate. }
    assert (Hsheet : existsb (String.eqb (fileExtension file)) ["xlsx"; "xls"]%list = true).
    { apply existsb_exists. exists (fileExtension file).
      split; [exact Hext | apply String.eqb_refl]. }
    now rewrite Hnot, Hsheet, Hread.
Qed.

(** ** Uploads *)

Lemma lastSegment_aux_plain (sep : ascii) (s cur : string) :
  (forall pre post, s <> (pre ++ String sep post)%string) ->
  Str.lastSegment_aux sep s cur = cur.
Proof.
  revert cur. induction s as [|c s IH]; intros cur Hplain; [reflexivity |].
  cbn [Str.lastSegment_aux]. destruct (Ascii.eqb c sep) eqn:E.
  - apply Ascii.eqb_eq in E. subst c. exfalso. now apply (Hplain EmptyString s).
  - apply IH. intros pre post ->. now apply (Hplain (String c pre) post).
Qed.

Lemma lastSegment_aux_suffix (sep : ascii) (base ext cur : string) :
  (forall pre post, ext <> (pre ++ String sep post)%string) ->
  Str.lastSegment_aux sep (base ++ String sep ext)%string cur = ext.
Proof.
  intros Hplain. revert cur. induction base as [|c base IH]; intros cur; cbn.
  - rewrite Ascii.eqb_refl. now apply lastSegment_aux_plain.
  - destruct (Ascii.eqb c sep); apply IH.
Qed.

(** X19. The extension of a file is what follows the last dot of its name,
    in lower case, so the letter case of the name does not matter; a name
    without a dot is its own extension, so a file named just csv is taken
    for delimited text. *)
Theorem fileExtension_of_name (base ext data : string) :
  (forall pre post, ext <> (pre ++ String "." post)%string) ->
  fileExtension (mkFile (base ++ String "." ext) data) = Str.toLowerCase ext
  /\ fileExtension (mkFile ext data) = Str.toLowerCase ext.
Proof.
  intros Hplain. unfold fileExtension, Str.lastSegment. cbn [fileName].
  now rewrite lastSegment_aux_suffix, lastSegment_aux_plain.
Qed.

Lemma no_dot_in (ext : string) :
  Str.includes ext "." = false ->
  forall pre post, ext <> (pre ++ String "." post)%string.
Proof.
  intros Hno pre post ->.
  assert (H : Str.includes (pre ++ String "." post) "." = true)
    by (apply includes_iff; now exists pre, post).
  congruence.
Qed.

(** X19, witness: a name in capitals with two dots. *)
Lemma fileExtension_of_name_witness :
  fileExtension (mkFile "Q1.REPORT.XLSX" "bytes") = "xlsx"
  /\ fileExtension (mkFile "XLSX" "bytes") = "xlsx".
Proof.
  apply (fileExtension_of_name "Q1.REPORT" "XLSX" "bytes").
  now apply no_dot_in.
Defined.

(** X20. An upload always clears the file input, and alerts exactly when
    the extension is none of csv, xlsx and xls. A spreadsheet whose read
    throws raises no alert and leaves the state as it was. *)
Theorem upload_effects (Date_parse : string -> Num.float)
    (Papa_parse : string -> ParseResults) (XLSX_rows : string -> option (list Row))
    (st : State) (file : File) :
  let supported :=
    String.eqb (fileExtension file) "csv"
    || String.eqb (fileExtension file) "xlsx"
    || String.eqb (fileExtension file) "xls" in
  snd (onFileUpload Date_parse Papa_parse XLSX_rows st file)
  = (if supported then [ClearFileInput]
     else [Alert "Unsupported format. Please upload CSV or Excel."; ClearFileInput])
  /\ (String.eqb (fileExtension file) "csv" = false ->
      XLSX_rows (fileData file) = None ->
      fst (onFileUpload Date_parse Papa_parse XLSX_rows st file) = st).
Proof.
  cbn zeta. unfold onFileUpload. cbn [existsb].
  destruct (String.eqb (fileExtension file) "csv"); cbn [orb].
  - split; [reflexivity | discriminate].
  - rewrite orb_false_r.
    destruct (String.eqb (fileExtension file) "xlsx" || String.eqb (fileExtension file) "xls").
    + destruct (XLSX_rows (fileData file)); split; try reflexivity; discriminate.
    + split; reflexivity.
Qed.

(** X21. Only the first record decides which columns get a Min and a Max
    input: they are the columns whose value there reads as a number, in
    column order, and with no record at all there are none. *)
Theorem numericColumns_first_record (rowData : list Row) (columnDefs : list ColDef) :
  numericColumns [] columnDefs = []
  /\ numericColumns rowData columnDefs
     = numericColumns (firstn 1 rowData) columnDefs
  /\ sublist (numericColumns rowData columnDefs) columnDefs
  /\ (forall r rest col,
         rowData = r :: rest ->
         (In col (numericColumns rowData columnDefs)
          <-> In col columnDefs
              /\ Num.isNaN (parseFloat (getProp r (field col))) = false)).
Proof.
  split; [|split; [|split]].
  - unfold numericColumns. induction columnDefs as [|col cols IH]; [reflexivity |].
    cbn [List.filter]. now rewrite parseFloat_undefined.
  - now destruct rowData.
  - apply filter_sublist.
  - intros r rest col ->. unfold numericColumns.
    now rewrite filter_In, negb_true_iff.
Qed.

(** ** The token relay, request by request *)

Lemma env_complete_or_not (env : Env) : completeEnv env \/ incompleteEnv env.
Proof.
  unfold completeEnv, incompleteEnv, missing.
  destruct env as [[[|c0 c]|] [[|t0 t]|] [[|s0 s]|] [[|w0 w]|] [[|r0 r]|]]; cbn; auto 10.
Qed.

Lemma GET_incomplete (env : Env) : incompleteEnv env -> GET env = Ret incomplete.
Proof.
  intros Hmissing. unfold GET.
  destruct Hmissing as [H | [H | [H | [H | H]]]]; apply missing_falsy in H;
    rewrite H; rewrite ?orb_true_r; reflexivity.
Qed.

(** [GET] with all its settings, in one piece: what it asks and what it
    answers, by the outcomes of its requests. *)
Lemma GET_run (env : Env) (net : nat -> Request -> Outcome) (i : nat) :
  completeEnv env ->
  run net i (GET env)
  = match usable (net i (tokenRequest env)) with
    | None =>
        ([tokenRequest env],
         failure (thrownMessage "Failed to get Azure AD token: " "access_token"
                    (net i (tokenRequest env))))
    | Some tokenData =>
        let second := embedRequest env (getProp tokenData "access_token") in
        match usable (net (S i) second) with
        | None =>
            ([tokenRequest env; second],
             failure (thrownMessage "Failed to generate embed token: " "token"
                        (net (S i) second)))
        | Some embedData => ([tokenRequest env; second], success env embedData)
        end
    end.
Proof.
  intros (Hc & Ht & Hs & Hw & Hr). unfold GET.
  rewrite Hc, Ht, Hs, Hw, Hr. cbn [negb orb run].
  fold (tokenRequest env).
  destruct (net i (tokenRequest env)) as [m1 | [ok1 st1 [e1 | | tokenData]]];
    cbn [usable thrownMessage ok json statusText negb];
    try reflexivity; destruct ok1; cbn [negb run]; try reflexivity.
  fold (embedRequest env (getProp tokenData "access_token")).
  destruct (net (S i) (embedRequest env (getProp tokenData "access_token")))
    as [m2 | [ok2 st2 [e2 | | embedData]]];
    cbn [usable thrownMessage ok json statusText negb];
    try reflexivity; destruct ok2; cbn [negb run]; reflexivity.
Qed.

Lemma failure_shape (message : string) :
  status (failure message) = 500
  /\ responseHeaders (failure message) = [("Content-Type", "application/json")]
  /\ getOwn (responseBody (failure message)) "error"
     = Some (JStr "Failed to generate Power BI embed token")
  /\ getOwn (responseBody (failure message)) "details" = Some (JStr message).
Proof. repeat split. Qed.

Lemma success_shape (env : Env) (embedData : Obj JsValue) :
  completeEnv env ->
  status (success env embedData) = 200
  /\ getOwn (responseBody (success env embedData)) "reportId"
     = Some (setting (POWER_BI_REPORT_ID env))
  /\ getOwn (responseBody (success env embedData)) "error" = None
  /\ (getProp embedData "token" = JUndefined <->
      getOwn (responseBody (success env embedData)) "embedToken" = None).
Proof.
  intros (_ & _ & _ & _ & Hr). destruct env as [c t s w [r|]]; [|discriminate].
  unfold success. cbn [status responseBody setting POWER_BI_REPORT_ID].
  destruct (getProp embedData "token"), (getProp embedData "expiration");
    cbn; repeat split; intros; congruence.
Qed.

(** X22. Whatever the settings and whatever the network does, the relay
    answers with status 200 or 500 and a JSON content type; every 500 has
    an [error] member that is a non-empty string, and every 200 has no
    [error] member, forbids caching, and names the configured report. *)
Theorem relay_answers (env : Env) (net : nat -> Request -> Outcome) (i : nat) :
  let response := snd (run net i (GET env)) in
  (status response = 200 \/ status response = 500)
  /\ In ("Content-Type", "application/json") (responseHeaders response)
  /\ (status response = 500 ->
      exists message,
        getOwn (responseBody response) "error" = Some (JStr message)
        /\ message <> EmptyString)
  /\ (status response = 200 ->
      In ("Cache-Control", "no-store") (responseHeaders response)
      /\ getOwn (responseBody response) "error" = None
      /\ getOwn (responseBody response) "reportId"
         = Some (setting (POWER_BI_REPORT_ID env))).
Proof.
  cbn zeta.
  assert (Hfail : forall message,
    (status (failure message) = 200 \/ status (failure message) = 500)
    /\ In ("Content-Type", "application/json") (responseHeaders (failure message))
    /\ (status (failure message) = 500 ->
        exists m,
          getOwn (responseBody (failure message)) "error" = Some (JStr m)
          /\ m <> EmptyString)
    /\ (status (failure message) = 200 ->
        In ("Cache-Control", "no-store") (responseHeaders (failure message))
        /\ getOwn (responseBody (failure message)) "error" = None
        /\ getOwn (responseBody (failure message)) "reportId"
           = Some (setting (POWER_BI_REPORT_ID env)))).
  { intros message. split; [now right | split; [now left | split]].
    - intros _. eexists. split; [reflexivity | discriminate].
    - discriminate. }
  destruct (env_complete_or_not env) as [Hc | Hi].
  - rewrite (GET_run env net i Hc).
    destruct (usable (net i (tokenRequest env))) as [tokenData|]; [|apply Hfail].
    cbn zeta.
    destruct (usable (net (S i) _)) as [embedData|]; [|apply Hfail].
    cbn [snd]. destruct (success_shape env embedData Hc) as (Hs & Hr & He & _).
    split; [now left | split; [now left | split]].
    + rewrite Hs. discriminate.
    + intros _. split; [right; now left | now split].
  - rewrite (GET_incomplete env Hi). cbn [run snd].
    split; [now right | split; [now left | split]].
    + intros _. eexists. split; [reflexivity | discriminate].
    + discriminate.
Qed.

(** X23. The relay makes no request, one, or two, in that order: the
    first for the access token, and the second, for the embed token, only
    once the first came back usable, bearing the access token read off it.
    With all settings there it always makes the first. *)
Theorem relay_requests (env : Env) (net : nat -> Request -> Outcome) (i : nat) :
  (fst (run net i (GET env)) = [] /\ incompleteEnv env)
  \/ (fst (run net i (GET env)) = [tokenRequest env]
      /\ completeEnv env
      /\ usable (net i (tokenRequest env)) = None)
  \/ (exists tokenData,
        fst (run net i (GET env))
        = [tokenRequest env; embedRequest env (getProp tokenData "access_token")]
        /\ completeEnv env
        /\ usable (net i (tokenRequest env)) = Some tokenData).
Proof.
  destruct (env_complete_or_not env) as [Hc | Hi].
  - rewrite (GET_run env net i Hc). right.
    destruct (usable (net i (tokenRequest env))) as [tokenData|] eqn:E.
    + right. exists tokenData. cbn zeta.
      destruct (usable (net (S i) _));
        (split; [reflexivity | split; [exact Hc | reflexivity]]).
    + left. split; [reflexivity | split; [exact Hc | reflexivity]].
  - left. now rewrite (GET_incomplete env Hi).
Qed.

(** X24. The answer is 200 exactly when all settings are there and both
    requests came back usable: resolved, with a success status and a body
    that reads as an object. *)
Theorem relay_success_iff (env : Env) (net : nat -> Request -> Outcome) (i : nat) :
  status (snd (run net i (GET env))) = 200
  <-> completeEnv env
      /\ exists tokenData embedData,
           usable (net i (tokenRequest env)) = Some tokenData
           /\ usable (net (S i) (embedRequest env (getProp tokenData "access_token")))
              = Some embedData.
Proof.
  destruct (env_complete_or_not env) as [Hc | Hi].
  - rewrite (GET_run env net i Hc).
    destruct (usable (net i (tokenRequest env))) as [tokenData|] eqn:E1.
    + cbn zeta.
      destruct (usable (net (S i) (embedRequest env (getProp tokenData "access_token"))))
        as [embedData|] eqn:E2; cbn [snd].
      * split; [intros _ | reflexivity].
        split; [exact Hc | now exists tokenData, embedData].
      * split; [discriminate |].
        intros (_ & t & e & [= <-] & He). congruence.
    + cbn [snd]. split; [discriminate | intros (_ & t & e & Ht & _); discriminate].
  - rewrite (GET_incomplete env Hi). cbn [run snd]. split; [discriminate |].
    intros ((Hcl & Ht & Hs & Hw & Hr) & _). exfalso.
    destruct Hi as [H | [H | [H | [H | H]]]]; apply missing_falsy in H;
      apply negb_true_iff in H; congruence.
Qed.

(** X25. The client id, the client secret and the tenant id reach the
    first request only: with the same workspace and report and the same
    outcomes of the requests, two complete configurations get the same
    answer, whatever their credentials. *)
Theorem relay_answer_ignores_credentials (env env' : Env)
    (outcomes : nat -> Outcome) (i : nat) :
  completeEnv env -> completeEnv env' ->
  POWER_BI_WORKSPACE_ID env = POWER_BI_WORKSPACE_ID env' ->
  POWER_BI_REPORT_ID env = POWER_BI_REPORT_ID env' ->
  snd (run (fun j _ => outcomes j) i (GET env))
  = snd (run (fun j _ => outcomes j) i (GET env')).
Proof.
  intros Hc Hc' Hw Hr.
  rewrite (GET_run env _ i Hc), (GET_run env' _ i Hc').
  destruct (usable (outcomes i)) as [tokenData|]; [|reflexivity].
  cbn zeta. destruct (usable (outcomes (S i))) as [embedData|]; [|reflexivity].
  cbn [snd]. unfold success. now rewrite Hw, Hr.
Qed.

(** X25, witness: two configurations that differ in their credentials,
    the first request rejected. *)
Lemma relay_answer_ignores_credentials_witness :
  snd (run (fun _ _ => Rejected "down") 0
         (GET (mkEnv (Some "id-a") (Some "tenant-a") (Some "secret-a") (Some "w") (Some "r"))))
  = snd (run (fun _ _ => Rejected "down") 0
           (GET (mkEnv (Some "id-b") (Some "tenant-b") (Some "secret-b") (Some "w")
                   (Some "r")))).
Proof.
  apply (relay_answer_ignores_credentials
           (mkEnv (Some "id-a") (Some "tenant-a") (Some "secret-a") (Some "w") (Some "r"))
           (mkEnv (Some "id-b") (Some "tenant-b") (Some "secret-b") (Some "w") (Some "r"))
           (fun _ => Rejected "down") 0);
    try reflexivity; repeat split.
Defined.

(** X26. A 200 answer carries an [embedToken] member exactly when the body
    of the second answer has a [token] that is not undefined: without one
    the relay still answers 200, with no token in it. *)
Theorem relay_token_may_be_absent (env : Env) (net : nat -> Request -> Outcome)
    (i : nat) (tokenData embedData : Obj JsValue) :
  completeEnv env ->
  usable (net i (tokenRequest env)) = Some tokenData ->
  usable (net (S i) (embedRequest env (getProp tokenData "access_token")))
  = Some embedData ->
  status (snd (run net i (GET env))) = 200
  /\ (getProp embedData "token" = JUndefined <->
      getOwn (responseBody (snd (run net i (GET env)))) "embedToken" = None).
Proof.
  intros Hc H1 H2. rewrite (GET_run env net i Hc), H1. cbn zeta. rewrite H2. cbn [snd].
  destruct (success_shape env embedData Hc) as (Hs & _ & _ & Htoken). now split.
Qed.

(** X26, witness: both requests answered, the second with an empty
    object. *)
Lemma relay_token_may_be_absent_witness :
  status
    (snd (run (fun _ _ => Resolved (mkUpstreamResponse true "OK" (ParsedObject []))) 0
            (GET (mkEnv (Some "c") (Some "t") (Some "s") (Some "w") (Some "r")))))
  = 200
  /\ (getProp [] "token" = JUndefined <->
      getOwn
        (responseBody
           (snd (run (fun _ _ => Resolved (mkUpstreamResponse true "OK" (ParsedObject [])))
                   0 (GET (mkEnv (Some "c") (Some "t") (Some "s") (Some "w") (Some "r"))))))
        "embedToken"
      = None).
Proof.
  apply (relay_token_may_be_absent
           (mkEnv (Some "c") (Some "t") (Some "s") (Some "w") (Some "r"))
           (fun _ _ => Resolved (mkUpstreamResponse true "OK" (ParsedObject []))) 0 [] []);
    try reflexivity; repeat split.
Defined.

(** ** What the handlers leave alone *)

(** X27. The dataset changes only by an upload or by Reset All: searching,
    setting dates or bounds, showing or hiding the report and exporting
    leave the records and the columns as they are. *)
Theorem dataset_changes_only_by_upload_or_reset (Date_parse : string -> Num.float)
    (Papa_parse : string -> ParseResults) (XLSX_rows : string -> option (list Row))
    (st : State) (a : Action) :
  (forall file, a <> Upload file) ->
  a <> Refresh ->
  rowData (step Date_parse Papa_parse XLSX_rows st a) = rowData st
  /\ columnDefs (step Date_parse Papa_parse XLSX_rows st a) = columnDefs st.
Proof.
  intros Hupload Hrefresh.
  destruct a as [file | text | value | value | field value | field value | | |];
    cbn [step]; try (split; reflexivity).
  - now contradiction (Hupload file).
  - unfold pbiEffect. cbn [showPbi setShowPbi].
    now destruct (negb (showPbi st)).
  - now contradiction Hrefresh.
Qed.

(** X27, witness: a search in a busy session. *)
Lemma dataset_changes_only_by_upload_or_reset_witness :
  rowData
    (step Host.isoDate (fun _ => mkParseResults [] []) (fun _ => None) busyState
       (Search "200"))
  = scenarioA
  /\ columnDefs
       (step Host.isoDate (fun _ => mkParseResults [] []) (fun _ => None) busyState
          (Search "200"))
     = [toColDef "Sales"].
Proof.
  apply (dataset_changes_only_by_upload_or_reset Host.isoDate
           (fun _ => mkParseResults [] []) (fun _ => None) busyState (Search "200"));
    discriminate.
Defined.

(** X28. No action clears the embed configuration: once it is set it stays
    set, through uploads and Reset All as well. *)
Theorem embed_config_is_never_cleared (Date_parse : string -> Num.float)
    (Papa_parse : string -> ParseResults) (XLSX_rows : string -> option (list Row))
    (st : State) (a : Action) (config : EmbedConfig) :
  pbiEmbedConfig st = Some config ->
  exists config', pbiEmbedConfig (step Date_parse Papa_parse XLSX_rows st a) = Some config'.
Proof.
  intros Hset. destruct a; cbn [step]; try (now exists config).
  - destruct (upload_cases Date_parse Papa_parse XLSX_rows st file)
      as [-> | (rows & cols & _ & ->)]; now exists config.
  - unfold pbiEffect. cbn [showPbi setShowPbi].
    destruct (negb (showPbi st)); [now eexists | now exists config].
Qed.

(** X28, witness: the report shown, then Reset All. *)
Lemma embed_config_is_never_cleared_witness :
  exists config',
    pbiEmbedConfig
      (step Host.isoDate (fun _ => mkParseResults [] []) (fun _ => None)
         (step Host.isoDate (fun _ => mkParseResults [] []) (fun _ => None)
            initialState TogglePbi)
         Refresh)
    = Some config'.
Proof.
  apply (embed_config_is_never_cleared Host.isoDate
           (fun _ => mkParseResults [] []) (fun _ => None)
           (step Host.isoDate (fun _ => mkParseResults [] []) (fun _ => None)
              initialState TogglePbi)
           Refresh
           (mkEmbedConfig "your-report-id" POWER_BI_EMBED_URL "your-access-token")).
  reflexivity.
Defined.

(** ** Render by render *)

Section RenderProperties.

Variable Date_parse : string -> Num.float.
Variable Papa_parse : string -> ParseResults.
Variable XLSX_rows : string -> option (list Row).

Lemma setFilterText_same (st : State) : setFilterText (filterText st) st = st.
Proof. now destruct st. Qed.

Lemma finishRead_frame (file : File) (st st' : State) :
  finishRead Papa_parse XLSX_rows file st = Some st' ->
  showPbi st' = showPbi st /\ pbiEmbedConfig st' = pbiEmbedConfig st.
Proof.
  unfold finishRead. destruct (String.eqb (fileExtension file) "csv").
  - now intros [= <-].
  - destruct (XLSX_rows (fileData file)); [now intros [= <-] | discriminate].
Qed.

(** After the effects have run, the filtered dataset is current and a shown
    panel is configured, provided each already was so if its effect was not
    pending. *)
Lemma runEffects_settles (s : Session) :
  (filterPending s = false -> Current Date_parse (current s)) ->
  (pbiPending s = false -> Configured (current s)) ->
  Current Date_parse (current (runEffects Date_parse s))
  /\ Configured (current (runEffects Date_parse s)).
Proof.
  intros Hf Hp. unfold runEffects, Current, Configured in *. cbn [current].
  destruct s as [st fp pp rs]. cbn [current filterPending pbiPending] in *.
  destruct fp, pp; cbn.
  - split; [reflexivity |]. unfold pbiEffect.
    destruct (showPbi st) eqn:E; cbn; [now eexists | congruence].
  - split; [reflexivity | now apply Hp].
  - split.
    + unfold pbiEffect. destruct (showPbi st); cbn; now apply Hf.
    + unfold pbiEffect. destruct (showPbi st) eqn:E; cbn; [now eexists | congruence].
  - split; [now apply Hf | now apply Hp].
Qed.

Lemma rendered_settled (s : Session) :
  Rendered Date_parse Papa_parse XLSX_rows s ->
  (filterPending s = false -> Current Date_parse (current s))
  /\ (pbiPending s = false -> Configured (current s)).
Proof.
  induction 1 as [|s e _ [IHf IHp]]; [split; discriminate |].
  destruct (runEffects_settles s IHf IHp) as [Hc Hg].
  destruct e as [a | | n]; cbn [micro].
  - set (r := runEffects Date_parse s) in *.
    destruct a as [file | text | value | value | field value | field value | | |];
      cbn [handle current filterPending pbiPending];
      try (split; [discriminate | intros _; exact Hg]);
      try (split; [intros _; exact Hc | intros _; exact Hg]).
    + split; [|intros _; exact Hg]. intros Hsame.
      apply negb_false_iff, String.eqb_eq in Hsame. subst text.
      now rewrite setFilterText_same.
    + split; [intros _; exact Hc | discriminate].
    + split; [discriminate |]. intros Hoff. unfold Configured. cbn. discriminate.
  - split; intros _; assumption.
  - cbn zeta. set (r := runEffects Date_parse s) in *.
    destruct (nth_error (reads r) n) as [file|]; [|split; intros _; assumption].
    destruct (finishRead Papa_parse XLSX_rows file (current r)) as [st'|] eqn:E;
      cbn [current filterPending pbiPending].
    + split; [discriminate |]. intros _.
      destruct (finishRead_frame _ _ _ E) as [Hs Hcfg].
      unfold Configured in *. now rewrite Hs, Hcfg.
    + split; intros _; assumption.
Qed.

(** X14. Whenever the filter effect is not pending, the filtered dataset
    on the page is the dataset under the filters of that render; and once
    the pending effects have run it always is. The render committed
    between a completed read and the effect is the one that can show a
    stale filtered dataset: after a first delimited-text file is read, it
    shows the new records with an empty filtered dataset, the effect
    pending. *)
Theorem rendered_filtered_is_current :
  (forall s,
      Rendered Date_parse Papa_parse XLSX_rows s ->
      (filterPending s = false -> Current Date_parse (current s))
      /\ Current Date_parse (current (runEffects Date_parse s)))
  /\ (forall file,
         fileExtension file = "csv" ->
         let s := micro Date_parse Papa_parse XLSX_rows
                    (micro Date_parse Papa_parse XLSX_rows mounted (User (Upload file)))
                    (ReadDone 0) in
         Rendered Date_parse Papa_parse XLSX_rows s
         /\ filterPending s = true
         /\ rowData (current s) = data (Papa_parse (fileData file))
         /\ filteredData (current s) = []
         /\ filterData Date_parse (rowData (current s)) (filterText (current s))
              (dateRange (current s)) (numericFilters (current s))
            = data (Papa_parse (fileData file))).
Proof.
  split.
  - intros s Hs. destruct (rendered_settled s Hs) as [Hf Hp].
    split; [exact Hf | now apply runEffects_settles].
  - intros file Hcsv. cbn zeta. split; [do 2 constructor; constructor |].
    cbn [micro handle runEffects mounted current filterPending pbiPending reads].
    unfold startRead. rewrite Hcsv. cbn [String.eqb Ascii.eqb Bool.eqb orb app nth_error].
    unfold finishRead. rewrite Hcsv. cbn. repeat split.
Qed.

(** X15. Whenever the effect on [showPbi] is not pending, a render that
    shows the report panel has the embed configuration; and once the
    pending effects have run it always has. The render committed between
    the toggle and the effect is the one that shows the panel without a
    configuration. *)
Theorem rendered_shown_has_config :
  (forall s,
      Rendered Date_parse Papa_parse XLSX_rows s ->
      (pbiPending s = false -> Configured (current s))
      /\ Configured (current (runEffects Date_parse s)))
  /\ (let s := micro Date_parse Papa_parse XLSX_rows mounted (User TogglePbi) in
      Rendered Date_parse Papa_parse XLSX_rows s
      /\ pbiPending s = true
      /\ showPbi (current s) = true
      /\ pbiEmbedConfig (current s) = None).
Proof.
  split.
  - intros s Hs. destruct (rendered_settled s Hs) as [Hf Hp].
    split; [exact Hp | now apply runEffects_settles].
  - cbn zeta. split; [do 2 constructor | repeat split].
Qed.





End RenderProperties.

(** X14, witness: a file read, then a text searched, the effect run. *)
Lemma rendered_filtered_is_current_witness :
  Current Host.isoDate
    (current
       (runEffects Host.isoDate
          (micro Host.isoDate (fun _ => mkParseResults scenarioA ["Sales"]) (fun _ => None)
             (micro Host.isoDate (fun _ => mkParseResults scenarioA ["Sales"])
                (fun _ => None)
                (micro Host.isoDate (fun _ => mkParseResults scenarioA ["Sales"])
                   (fun _ => None) mounted (User (Upload (mkFile "sales.csv" "Sales"))))
                (ReadDone 0))
             (User (Search "BAD"))))).
Proof.
  apply (proj1 (rendered_filtered_is_current Host.isoDate
                  (fun _ => mkParseResults scenarioA ["Sales"]) (fun _ => None))).
  do 3 constructor. constructor.
Defined.

(** X15, witness: the panel shown, the effect run. *)
Lemma rendered_shown_has_config_witness :
  exists config,
    pbiEmbedConfig
      (current
         (runEffects Host.isoDate
            (micro Host.isoDate (fun _ => mkParseResults [] []) (fun _ => None) mounted
               (User TogglePbi))))
    = Some config.
Proof.
  apply (proj2 (proj1 (rendered_shown_has_config Host.isoDate
                         (fun _ => mkParseResults [] []) (fun _ => None))
                  (micro Host.isoDate (fun _ => mkParseResults [] []) (fun _ => None)
                     mounted (User TogglePbi))
                  (Rendered_micro _ _ _ _ _ (Rendered_mounted _ _ _)))).
  reflexivity.
Defined.


(** ** A name without a dot *)

(** C7, where the code fails it. A file whose name is just [csv] has no
    extension, yet the handler takes the whole name for one: it raises no
    alert, hands the file to the delimited-text parser, and the records and
    columns that come back replace the dataset. The names [xlsx] and [xls]
    go to the spreadsheet reader in the same way. *)
Theorem dotless_name_is_ingested (Date_parse : string -> Num.float)
    (Papa_parse : string -> ParseResults) (XLSX_rows : string -> option (list Row))
    (st : State) (contents : string) :
  extensionOf "csv" = None
  /\ extensionOf "notes.txt" = Some "txt"
  /\ onFileUpload Date_parse Papa_parse XLSX_rows st (mkFile "csv" contents)
     = (filterEffect Date_parse (complete (Papa_parse contents) st), [ClearFileInput])
  /\ rowData (fst (onFileUpload Date_parse Papa_parse XLSX_rows st (mkFile "csv" contents)))
     = data (Papa_parse contents)
  /\ columnDefs
       (fst (onFileUpload Date_parse Papa_parse XLSX_rows st (mkFile "csv" contents)))
     = List.map toColDef (fields (Papa_parse contents))
  /\ (forall jsonData,
         XLSX_rows contents = Some jsonData ->
         extensionOf "xlsx" = None
         /\ onFileUpload Date_parse Papa_parse XLSX_rows st (mkFile "xlsx" contents)
            = (filterEffect Date_parse (onload jsonData st), [ClearFileInput])).
Proof.
  do 5 (split; [reflexivity |]).
  intros jsonData Hread. split; [reflexivity |].
  unfold onFileUpload. cbn. now rewrite Hread.
Qed.
